(** * SelfieSegmentationProcessor

    A shallow embedding of
    [demos/browser/app/meetingV2/videofilter/SelfieSegmentationProcessor.ts]:
    the video frame processor that sends frames to a segmentation backend and
    composites a sharp foreground over a blurred background.

    The processor's fields are a record, the canvases of the page and the
    frame arrays of the caller are stores addressed by reference, and the body
    of [process] is written in a state-and-exception monad whose third result
    is a call suspended at its [await].  What the platform decides during one
    call (whether a 2D context is handed out, what the backend delivers) is
    the [Tick] the call runs in. *)

From Stdlib Require Import ZArith Bool List String Lia.
From Stdlib Require Import Floats.PrimFloat Floats.FloatOps Floats.SpecFloat.
From Stdlib Require Import Floats.FloatAxioms Floats.FloatLemmas.
From Stdlib Require Import Numbers.Cyclic.Int63.Uint63.
From stdpp Require Import base option list gmap.

Local Open Scope Z_scope.

(** ** JavaScript numbers *)

(** A [number] that holds a count or a canvas dimension is an integer and is
    kept in [Z]; [scaleFactor] and [fps] are genuine binary64 values. *)
Module Number.

(** The integer as a double (exact below 2^53). *)
Definition of_Z (z : Z) : float := PrimFloat.of_uint63 (Uint63.of_Z z).

(** Rounding toward zero; NaN and the infinities give 0. *)
Definition truncate (x : float) : Z :=
  match Prim2SF x with
  | S754_finite s m e =>
      let v := if 0 <=? e then Z.pos m * 2 ^ e else Z.pos m / 2 ^ (- e) in
      if s then - v else v
  | _ => 0
  end.

(** WebIDL conversion of a number to [unsigned long]. *)
Definition ToUint32 (x : float) : Z := truncate x mod 2 ^ 32.

(** [a % b] of JavaScript on integers: the sign follows the dividend. *)
Definition remainder (a b : Z) : Z := Z.rem a b.

End Number.

(** ** Pixels, images and the 2D context *)

Record Pixel := { red : Z; green : Z; blue : Z; alpha : Z }.

Definition transparent : Pixel := {| red := 0; green := 0; blue := 0; alpha := 0 |}.

(** The pixel at column [x] and row [y]. *)
Definition Bitmap := Z -> Z -> Pixel.

(** An image source of [drawImage]: the bitmap of a canvas or a mask
    ([GpuBuffer]) of the backend. *)
Record Image := { width : Z; height : Z; bitmap : Bitmap }.

(** The segmentation mask the backend delivers. *)
Definition GpuBuffer : Type := Image.

Definition inside (w h x y : Z) : bool :=
  (0 <=? x) && (x <? w) && (0 <=? y) && (y <? h).

Definition blank (w h : Z) : Image :=
  {| width := w; height := h; bitmap := fun _ _ => transparent |}.

Inductive CompositeOperation := SourceOver | SourceIn | DestinationOver.

Inductive Filter := FilterNone | FilterBlur (px : Z).

(** The part of a 2D context's drawing state the processor sets. *)
Record DrawingState := {
  globalCompositeOperation : CompositeOperation;
  filter : Filter;
  font : string
}.

Definition initialState : DrawingState :=
  {| globalCompositeOperation := SourceOver; filter := FilterNone;
     font := "10px sans-serif" |}.

(** An [HTMLCanvasElement] with its 2D context: the bitmap, the current
    drawing state and the stack of [save]. *)
Record Canvas := {
  image : Image;
  state : DrawingState;
  saved : list DrawingState
}.

(** What [document.createElement('canvas')] returns: 300 by 150. *)
Definition newCanvas : Canvas :=
  {| image := blank 300 150; state := initialState; saved := [] |}.

(** The value read through a reference that names no canvas. *)
Definition noCanvas : Canvas :=
  {| image := blank 0 0; state := initialState; saved := [] |}.

#[global] Instance Canvas_inhabited : Inhabited Canvas := populate noCanvas.

(** Setting the [width] or [height] attribute of a canvas reflects an
    [unsigned long]: a value above 2^31 - 1 falls back to the default. *)
Definition dimension (default : Z) (x : float) : Z :=
  let n := Number.ToUint32 x in
  if 2147483647 <? n then default else n.

(** Either setter replaces the bitmap by a transparent one and resets the
    context.  [w] and [h] are the dimensions after the assignment. *)
Definition resized (w h : Z) : Canvas :=
  {| image := blank w h; state := initialState; saved := [] |}.

Definition setWidth (w : Z) (c : Canvas) : Canvas := resized w (height (image c)).
Definition setHeight (h : Z) (c : Canvas) : Canvas := resized (width (image c)) h.

Definition withImage (b : Bitmap) (c : Canvas) : Canvas :=
  {| image := {| width := width (image c); height := height (image c); bitmap := b |};
     state := state c; saved := saved c |}.

Definition withState (s : DrawingState) (c : Canvas) : Canvas :=
  {| image := image c; state := s; saved := saved c |}.

(** [ctx.save()] and [ctx.restore()]; a restore on an empty stack does nothing. *)
Definition save (c : Canvas) : Canvas :=
  {| image := image c; state := state c; saved := state c :: saved c |}.

Definition restore (c : Canvas) : Canvas :=
  match saved c with
  | [] => c
  | s :: rest => {| image := image c; state := s; saved := rest |}
  end.

Definition setGlobalCompositeOperation (op : CompositeOperation) (c : Canvas) : Canvas :=
  withState {| globalCompositeOperation := op; filter := filter (state c);
               font := font (state c) |} c.

Definition setFilter (f : Filter) (c : Canvas) : Canvas :=
  withState {| globalCompositeOperation := globalCompositeOperation (state c);
               filter := f; font := font (state c) |} c.

Definition setFont (f : string) (c : Canvas) : Canvas :=
  withState {| globalCompositeOperation := globalCompositeOperation (state c);
               filter := filter (state c); font := f |} c.

(** Modelled from the spec: the blend modes of the platform's canvas, which
    are no code of the repository.  "Blend mode 3 is exact
    source-alpha-in-destination compositing (output = source where
    destination alpha > 0, transparent elsewhere); blend mode 4 is exact
    destination-over compositing (output = destination where destination
    alpha > 0, else source)."  The default mode, which the spec leaves to the
    platform, is read the same two-valued way: the source where it has
    coverage, the destination elsewhere. *)
Definition blend (op : CompositeOperation) (src dst : Pixel) : Pixel :=
  match op with
  | SourceOver => if 0 <? alpha src then src else dst
  | SourceIn => if 0 <? alpha dst then src else transparent
  | DestinationOver => if 0 <? alpha dst then dst else src
  end.

(** The drawing primitives that stay with the browser. *)
Class Browser := {
  (** an image stretched to [dw] by [dh] pixels *)
  resample : Image -> Z -> Z -> Bitmap;
  (** the blur filter of the given radius in px *)
  blur : Z -> Image -> Bitmap;
  (** an image drawn at the origin under [ctx.scale(f, f)] on a canvas of the
      given size *)
  scaleDraw : float -> Image -> Z -> Z -> Bitmap;
  (** the text [Math.round(fps) + " FPS"] filled at (20, 20) in the given
      font over an image *)
  fillText : string -> float -> Image -> Bitmap
}.

(** ** Stores *)

Abbreviation loc := positive.

(** The page: its canvases by reference, and the lines [LogUtils] writes to
    the console (the elapsed time printed at line 138 is left out). *)
Record Page := {
  canvases : gmap positive Canvas;
  console : list string
}.

Definition withCanvases (m : gmap positive Canvas) (page : Page) : Page :=
  {| canvases := m; console := console page |}.

Definition logged (line : string) (page : Page) : Page :=
  {| canvases := canvases page; console := console page ++ [line] |}.

(** A [VideoFrameBuffer] of the SDK: [asCanvasElement()] answers the canvas
    behind the buffer, or [null] once the buffer was destroyed. *)
Record VideoFrameBuffer := { asCanvasElement : option positive }.

(** The arrays of frame buffers the caller passes to [process], by reference. *)
Abbreviation Arrays := (gmap positive (list VideoFrameBuffer)).

(** Modelled from the spec: [DeferredObservable], imported from
    [./DeferredObservable] and absent from the sources, is the single-slot
    channel of the spec.  [value] is "the last value published, without
    consuming it"; [next] (publish) "stores value as current; if a waiter is
    registered, it is resolved exactly once with this value and the waiter
    slot is cleared"; [whenNext] "registers exactly one pending waiter" and a
    second registration overwrites the first. *)
Module DeferredObservable.

Record t (T : Type) := Build { value : option T; waiter : bool }.
Arguments Build {T}.
Arguments value {T}.
Arguments waiter {T}.

Definition new {T : Type} : t T := {| value := None; waiter := false |}.

(** The published value is whatever the caller passes, [undefined] included. *)
Definition next {T : Type} (v : option T) (d : t T) : t T :=
  {| value := v; waiter := false |}.

Definition whenNext {T : Type} (d : t T) : t T :=
  {| value := value d; waiter := true |}.

End DeferredObservable.

(** The [locateFile] option the backend is created with (lines 38 to 41):
    where it fetches the file of the given name. *)
Definition locateFile (file : string) : string :=
  String.append "https://cdn.jsdelivr.net/npm/@mediapipe/selfie_segmentation/" file.

(** The handle on the segmentation backend.  [sent] lists, oldest first, the
    images given to [send]. *)
Record SelfieSegmentation := {
  sent : list positive;
  modelSelection : Z;
  closed : bool
}.

Definition send (image : positive) (s : SelfieSegmentation) : SelfieSegmentation :=
  {| sent := sent s ++ [image]; modelSelection := modelSelection s; closed := closed s |}.

Definition close (s : SelfieSegmentation) : SelfieSegmentation :=
  {| sent := sent s; modelSelection := modelSelection s; closed := true |}.

(** ** The processor *)

(** The fields of the class.  [time] only feeds the clock-driven frame rate
    and is left out ([onInterval] threads it beside the record); [fpsTimer]
    says whether the interval is still set. *)
Record Processor := {
  targetCanvas : option positive;
  canvasCtx : positive;
  canvasVideoFrameBuffer : VideoFrameBuffer;
  sourceWidth : Z;
  sourceHeight : Z;
  blurAmount : Z;
  frames : Z;
  fps : float;
  fpsTimer : bool;
  reduceFactor : Z;
  runningCount : Z;
  scaleFactor : float;
  selfieSegmentation : option SelfieSegmentation;
  isReady : bool;
  mask_ : DeferredObservable.t GpuBuffer
}.

Definition set_targetCanvas (v : option positive) (p : Processor) : Processor :=
  {| targetCanvas := v; canvasCtx := canvasCtx p;
     canvasVideoFrameBuffer := canvasVideoFrameBuffer p;
     sourceWidth := sourceWidth p; sourceHeight := sourceHeight p;
     blurAmount := blurAmount p; frames := frames p; fps := fps p;
     fpsTimer := fpsTimer p; reduceFactor := reduceFactor p;
     runningCount := runningCount p; scaleFactor := scaleFactor p;
     selfieSegmentation := selfieSegmentation p; isReady := isReady p;
     mask_ := mask_ p |}.

Definition set_canvasVideoFrameBuffer (v : VideoFrameBuffer) (p : Processor) : Processor :=
  {| targetCanvas := targetCanvas p; canvasCtx := canvasCtx p;
     canvasVideoFrameBuffer := v;
     sourceWidth := sourceWidth p; sourceHeight := sourceHeight p;
     blurAmount := blurAmount p; frames := frames p; fps := fps p;
     fpsTimer := fpsTimer p; reduceFactor := reduceFactor p;
     runningCount := runningCount p; scaleFactor := scaleFactor p;
     selfieSegmentation := selfieSegmentation p; isReady := isReady p;
     mask_ := mask_ p |}.

Definition set_source (w h : Z) (p : Processor) : Processor :=
  {| targetCanvas := targetCanvas p; canvasCtx := canvasCtx p;
     canvasVideoFrameBuffer := canvasVideoFrameBuffer p;
     sourceWidth := w; sourceHeight := h;
     blurAmount := blurAmount p; frames := frames p; fps := fps p;
     fpsTimer := fpsTimer p; reduceFactor := reduceFactor p;
     runningCount := runningCount p; scaleFactor := scaleFactor p;
     selfieSegmentation := selfieSegmentation p; isReady := isReady p;
     mask_ := mask_ p |}.

Definition set_frames (v : Z) (p : Processor) : Processor :=
  {| targetCanvas := targetCanvas p; canvasCtx := canvasCtx p;
     canvasVideoFrameBuffer := canvasVideoFrameBuffer p;
     sourceWidth := sourceWidth p; sourceHeight := sourceHeight p;
     blurAmount := blurAmount p; frames := v; fps := fps p;
     fpsTimer := fpsTimer p; reduceFactor := reduceFactor p;
     runningCount := runningCount p; scaleFactor := scaleFactor p;
     selfieSegmentation := selfieSegmentation p; isReady := isReady p;
     mask_ := mask_ p |}.

Definition set_fps (v : float) (p : Processor) : Processor :=
  {| targetCanvas := targetCanvas p; canvasCtx := canvasCtx p;
     canvasVideoFrameBuffer := canvasVideoFrameBuffer p;
     sourceWidth := sourceWidth p; sourceHeight := sourceHeight p;
     blurAmount := blurAmount p; frames := frames p; fps := v;
     fpsTimer := fpsTimer p; reduceFactor := reduceFactor p;
     runningCount := runningCount p; scaleFactor := scaleFactor p;
     selfieSegmentation := selfieSegmentation p; isReady := isReady p;
     mask_ := mask_ p |}.

Definition set_fpsTimer (v : bool) (p : Processor) : Processor :=
  {| targetCanvas := targetCanvas p; canvasCtx := canvasCtx p;
     canvasVideoFrameBuffer := canvasVideoFrameBuffer p;
     sourceWidth := sourceWidth p; sourceHeight := sourceHeight p;
     blurAmount := blurAmount p; frames := frames p; fps := fps p;
     fpsTimer := v; reduceFactor := reduceFactor p;
     runningCount := runningCount p; scaleFactor := scaleFactor p;
     selfieSegmentation := selfieSegmentation p; isReady := isReady p;
     mask_ := mask_ p |}.

Definition set_runningCount (v : Z) (p : Processor) : Processor :=
  {| targetCanvas := targetCanvas p; canvasCtx := canvasCtx p;
     canvasVideoFrameBuffer := canvasVideoFrameBuffer p;
     sourceWidth := sourceWidth p; sourceHeight := sourceHeight p;
     blurAmount := blurAmount p; frames := frames p; fps := fps p;
     fpsTimer := fpsTimer p; reduceFactor := reduceFactor p;
     runningCount := v; scaleFactor := scaleFactor p;
     selfieSegmentation := selfieSegmentation p; isReady := isReady p;
     mask_ := mask_ p |}.

Definition set_scaleFactor (v : float) (p : Processor) : Processor :=
  {| targetCanvas := targetCanvas p; canvasCtx := canvasCtx p;
     canvasVideoFrameBuffer := canvasVideoFrameBuffer p;
     sourceWidth := sourceWidth p; sourceHeight := sourceHeight p;
     blurAmount := blurAmount p; frames := frames p; fps := fps p;
     fpsTimer := fpsTimer p; reduceFactor := reduceFactor p;
     runningCount := runningCount p; scaleFactor := v;
     selfieSegmentation := selfieSegmentation p; isReady := isReady p;
     mask_ := mask_ p |}.

Definition set_selfieSegmentation (v : option SelfieSegmentation) (p : Processor) : Processor :=
  {| targetCanvas := targetCanvas p; canvasCtx := canvasCtx p;
     canvasVideoFrameBuffer := canvasVideoFrameBuffer p;
     sourceWidth := sourceWidth p; sourceHeight := sourceHeight p;
     blurAmount := blurAmount p; frames := frames p; fps := fps p;
     fpsTimer := fpsTimer p; reduceFactor := reduceFactor p;
     runningCount := runningCount p; scaleFactor := scaleFactor p;
     selfieSegmentation := v; isReady := isReady p;
     mask_ := mask_ p |}.

Definition set_isReady (v : bool) (p : Processor) : Processor :=
  {| targetCanvas := targetCanvas p; canvasCtx := canvasCtx p;
     canvasVideoFrameBuffer := canvasVideoFrameBuffer p;
     sourceWidth := sourceWidth p; sourceHeight := sourceHeight p;
     blurAmount := blurAmount p; frames := frames p; fps := fps p;
     fpsTimer := fpsTimer p; reduceFactor := reduceFactor p;
     runningCount := runningCount p; scaleFactor := scaleFactor p;
     selfieSegmentation := selfieSegmentation p; isReady := v;
     mask_ := mask_ p |}.

Definition set_mask_ (v : DeferredObservable.t GpuBuffer) (p : Processor) : Processor :=
  {| targetCanvas := targetCanvas p; canvasCtx := canvasCtx p;
     canvasVideoFrameBuffer := canvasVideoFrameBuffer p;
     sourceWidth := sourceWidth p; sourceHeight := sourceHeight p;
     blurAmount := blurAmount p; frames := frames p; fps := fps p;
     fpsTimer := fpsTimer p; reduceFactor := reduceFactor p;
     runningCount := runningCount p; scaleFactor := scaleFactor p;
     selfieSegmentation := selfieSegmentation p; isReady := isReady p;
     mask_ := v |}.

(** ** Effects *)

Inductive Exn :=
| TypeError (message : string)
| Rejection (reason : string).

(** How a computation ends: with a value, with an exception, or suspended at
    an [await] that nothing completes. *)
Inductive Result (A : Type) :=
| Normal (a : A)
| Throw (e : Exn)
| Suspend.
Arguments Normal {A}.
Arguments Throw {A}.
Arguments Suspend {A}.

(** Computations over the processor ([this]) and the page. *)
Definition M (A : Type) : Type := Processor * Page -> Result A * (Processor * Page).

#[global] Instance M_ret : MRet M := fun A a s => (Normal a, s).

#[global] Instance M_bind : MBind M := fun A B f m s =>
  match m s with
  | (Normal a, s') => f a s'
  | (Throw e, s') => (Throw e, s')
  | (Suspend, s') => (Suspend, s')
  end.

Definition throw {A : Type} (e : Exn) : M A := fun s => (Throw e, s).

Definition suspend {A : Type} : M A := fun s => (Suspend, s).

Definition this : M Processor := fun s => (Normal (fst s), s).

Definition assign (f : Processor -> Processor) : M unit :=
  fun s => (Normal tt, (f (fst s), snd s)).

(** Reading through a canvas reference. *)
Definition canvas (l : loc) : M Canvas :=
  fun s => (Normal (canvases (snd s) !!! l), s).

(** A method call or an attribute assignment on a canvas or its context. *)
Definition update (l : loc) (f : Canvas -> Canvas) : M unit :=
  fun s => (Normal tt,
            (fst s, withCanvases (<[l := f (canvases (snd s) !!! l)]> (canvases (snd s))) (snd s))).

(** [document.createElement('canvas')]: a canvas no reference named before. *)
Definition createElement : M loc :=
  fun s => let l := fresh (dom (canvases (snd s))) in
           (Normal l, (fst s, withCanvases (<[l := newCanvas]> (canvases (snd s))) (snd s))).

Definition log (line : string) : M unit :=
  fun s => (Normal tt, (fst s, logged line (snd s))).

(** ** One call and its surroundings *)

(** What happens while [process] awaits the next mask. *)
Inductive Delivery :=
| Delivers (segmentationMask : option GpuBuffer)  (** [onResults] fires *)
| Rejects (e : Exn)                               (** the awaited promise rejects *)
| Never.                                          (** no result arrives *)

(** What the platform and the backend do during one call of [process]. *)
Record Tick := {
  context2d : bool;      (** [getContext('2d')] of the scaled canvas is not null *)
  sendRejects : bool;    (** the promise of [send] rejects *)
  delivery : Delivery
}.

(** How a call of [process] ends for its caller. *)
Inductive Outcome :=
| Returned (buffers : loc)   (** the promise resolves with this array *)
| Thrown (e : Exn)           (** the promise rejects *)
| Pending.                   (** the promise never settles *)

(** The backend's [onResults] callback, registered in the constructor:
    [this.mask$.next(segmentationMask)]. *)
Definition onResults (segmentationMask : option GpuBuffer) (p : Processor) : Processor :=
  set_mask_ (DeferredObservable.next segmentationMask (mask_ p)) p.

(** [initialize().then(() => {this.isReady = true;})] once the backend is up. *)
Definition initialized (p : Processor) : Processor := set_isReady true p.

(** The constructor.  The source fixes the initialiser of [reduceFactor] to 1;
    it is the argument [period] here, and [runningCount] starts from it "to
    force a run on first process". *)
Definition constructor (period : Z) (strength : Z) (page : Page) : Processor * Page :=
  let target := fresh (dom (canvases page)) in
  ({| targetCanvas := Some target;
      canvasCtx := target;
      canvasVideoFrameBuffer := {| asCanvasElement := Some target |};
      sourceWidth := 0;
      sourceHeight := 0;
      blurAmount := strength;
      frames := 0;
      fps := 0%float;
      fpsTimer := true;
      reduceFactor := period;
      runningCount := period;
      scaleFactor := 1%float;
      selfieSegmentation := Some {| sent := []; modelSelection := 1; closed := false |};
      isReady := false;
      mask_ := DeferredObservable.new |},
   withCanvases (<[target := newCanvas]> (canvases page)) page).

(** The callback of [window.setInterval] (lines 58 to 67), every 2000 ms.
    [time], the field the record leaves out, is threaded beside the
    processor; [t1] and [t2] are what [performance.now()] reads at line 60
    and at line 66. *)
Definition onInterval (t1 t2 : float) (s : float * Processor) : float * Processor :=
  let '(time, self) := s in
  let self :=
    if PrimFloat.ltb 0%float time then
      let d := (t1 - time)%float in
      if PrimFloat.ltb 0%float d
      then set_frames 0 (set_fps (Number.of_Z (frames self) * 1000 / d)%float self)
      else self
    else self in
  (t2, self).

(** [createCanvas(w, h)]: the arguments are any numbers, and become
    dimensions as the attribute setters of a canvas take them. *)
Definition createCanvas (w h : float) : M loc :=
  canvas ← createElement;
  update canvas (setWidth (dimension 300 w));;
  update canvas (setHeight (dimension 150 h));;
  mret canvas.

(** Line 111, the test that gates the inference. *)
Definition shouldRunInference (p : Processor) : bool :=
  runningCount p =? reduceFactor p.

(** Line 112, [this.runningCount = this.runningCount % 1]. *)
Definition resetCount (p : Processor) : Processor :=
  set_runningCount (Number.remainder (runningCount p) 1) p.

(** Line 142, [this.runningCount += 1]. *)
Definition countFrame (p : Processor) : Processor :=
  set_runningCount (runningCount p + 1) p.

Section Process.

Context {browser : Browser}.

(** The pixels [drawImage(src, 0, 0, dw, dh)] puts down: the source itself at
    its natural size, the browser's resampling otherwise. *)
Definition drawn (src : Image) (dw dh : Z) : Image :=
  {| width := dw; height := dh;
     bitmap := if (width src =? dw) && (height src =? dh)
               then bitmap src else resample src dw dh |}.

Definition filtered (f : Filter) (img : Image) : Bitmap :=
  match f with
  | FilterNone => bitmap img
  | FilterBlur px => blur px img
  end.

(** Every pixel of the canvas is blended with what was drawn over it, which
    is transparent outside the rectangle drawn to. *)
Definition paint (src : Bitmap) (dw dh : Z) (c : Canvas) : Canvas :=
  withImage (fun x y =>
               blend (globalCompositeOperation (state c))
                     (if inside dw dh x y then src x y else transparent)
                     (bitmap (image c) x y)) c.

(** [ctx.drawImage(src, 0, 0, dw, dh)] *)
Definition drawImage (src : Image) (dw dh : Z) (c : Canvas) : Canvas :=
  paint (filtered (filter (state c)) (drawn src dw dh)) dw dh c.

(** [ctx.clearRect(0, 0, w, h)] *)
Definition clearRect (w h : Z) (c : Canvas) : Canvas :=
  withImage (fun x y => if inside w h x y then transparent else bitmap (image c) x y) c.

(** Lines 116 to 123: the frame drawn into a canvas of its own, scaled. *)
Definition scaleFrame (t : Tick) (inputCanvas : loc) : M loc :=
  scaledCanvas ← createElement;
  input ← canvas inputCanvas;
  self ← this;
  update scaledCanvas
    (fun c => setWidth (dimension 300 (Number.of_Z (width (image input)) * scaleFactor self)) c);;
  input ← canvas inputCanvas;
  self ← this;
  update scaledCanvas
    (fun c => setHeight (dimension 150 (Number.of_Z (height (image input)) * scaleFactor self)) c);;
  if context2d t then
    self ← this;
    input ← canvas inputCanvas;
    update scaledCanvas
      (fun c => paint (scaleDraw (scaleFactor self) (image input)
                                 (width (image c)) (height (image c)))
                      (width (image c)) (height (image c)) c);;
    update scaledCanvas restore;;
    mret scaledCanvas
  else throw (TypeError "scaledCtx is null").

(** Line 132: [this.selfieSegmentation.send({ image })], whose rejection is
    logged by its own handler. *)
Definition sendImage (t : Tick) (scaledCanvas : loc) : M unit :=
  self ← this;
  match selfieSegmentation self with
  | None => throw (TypeError "this.selfieSegmentation is undefined")
  | Some backend =>
      assign (set_selfieSegmentation (Some (send scaledCanvas backend)));;
      if sendRejects t
      then log "ERROR SelfieSegmentationProcessor::selfieSegmentation"
      else mret tt
  end.

(** Line 137: [await maskPromise]. *)
Definition awaitMask (t : Tick) : M (option GpuBuffer) :=
  match delivery t with
  | Delivers segmentationMask =>
      assign (onResults segmentationMask);;
      mret segmentationMask
  | Rejects e => throw e
  | Never => suspend
  end.

(** Lines 112 to 139, the branch of a frame that runs the inference. *)
Definition runInference (t : Tick) (inputCanvas : loc) (doScale : bool)
  : M (option GpuBuffer) :=
  assign resetCount;;
  scaledCanvas ← (if doScale then scaleFrame t inputCanvas else mret inputCanvas);
  assign (fun p => set_mask_ (DeferredObservable.whenNext (mask_ p)) p);;
  sendImage t scaledCanvas;;
  mask ← awaitMask t;
  assign (fun p => set_frames (frames p + 1) p);;
  mret mask.

(** Lines 144 to 165: the mask, the frame kept where the mask is, and the
    frame again, blurred, under both. *)
Definition compositePasses (inputCanvas : loc) (mask : GpuBuffer) : M unit :=
  self ← this;
  match targetCanvas self with
  | None => throw (TypeError "targetCanvas is undefined")
  | Some target =>
      let canvasCtx := canvasCtx self in
      targetNow ← canvas target;
      let w := width (image targetNow) in
      let h := height (image targetNow) in
      update canvasCtx save;;
      update canvasCtx (clearRect w h);;
      update canvasCtx (drawImage mask w h);;
      update canvasCtx (setGlobalCompositeOperation SourceIn);;
      input ← canvas inputCanvas;
      update canvasCtx (drawImage (image input) w h);;
      update canvasCtx (setGlobalCompositeOperation DestinationOver);;
      (if 0 <? blurAmount self
       then update canvasCtx (setFilter (FilterBlur (blurAmount self)))
       else mret tt);;
      input ← canvas inputCanvas;
      targetNow ← canvas target;
      update canvasCtx
        (drawImage (image input) (width (image targetNow)) (height (image targetNow)));;
      update canvasCtx restore
  end.

(** Lines 167 and 168: the frame rate written over the output. *)
Definition drawFps : M unit :=
  self ← this;
  update (canvasCtx self) (setFont "12px serif");;
  update (canvasCtx self)
    (fun c => withImage (fillText (font (state c)) (fps self) (image c)) c).

(** The body of the [try], lines 110 to 169. *)
Definition tryBlock (t : Tick) (inputCanvas : loc) (doScale : bool) : M unit :=
  self ← this;
  let cached := DeferredObservable.value (mask_ self) in
  mask ← (if shouldRunInference self
          then runInference t inputCanvas doScale
          else mret cached);
  assign countFrame;;
  match mask with
  | Some mask => compositePasses inputCanvas mask;; drawFps
  | None => mret tt
  end.

(** Lines 98 to 105: the target canvas follows the size of the frame.  The
    result is the exception of an assignment through an undefined
    [targetCanvas], if any. *)
Definition resize (frameWidth frameHeight : Z) (s : Processor * Page)
  : option Exn * (Processor * Page) :=
  let '(self, page) := s in
  if negb (sourceWidth self =? frameWidth) || negb (sourceHeight self =? frameHeight)
  then
    let self := set_source frameWidth frameHeight self in
    match targetCanvas self with
    | None => (Some (TypeError "this.targetCanvas is undefined"), (self, page))
    | Some target =>
        let page := withCanvases
          (<[target := setWidth (sourceWidth self) (canvases page !!! target)]> (canvases page))
          page in
        let page := withCanvases
          (<[target := setHeight (sourceHeight self) (canvases page !!! target)]> (canvases page))
          page in
        (None, (self, page))
    end
  else (None, (self, page)).

(** How a call reaches its [try]: lines 82 to 107. *)
Inductive Entry :=
| PassThrough (page : Page)                 (** an early [return buffers] *)
| Breaks (e : Exn) (s : Processor * Page)   (** an exception before the [try] *)
| Enters (inputCanvas : loc) (doScale : bool) (s : Processor * Page).

Definition enter (buffers : loc) (self : Processor) (page : Page) (arrays : Arrays)
  : Entry :=
  if negb (isReady self) then PassThrough page else
  match (arrays !!! buffers) !! 0%nat with
  | None => Breaks (TypeError "buffers[0] is undefined") (self, page)
  | Some first =>
      match asCanvasElement first with
      | None =>
          PassThrough
            (logged "ERROR SegmentationFilter::process input canvas is already destroyed" page)
      | Some inputCanvas =>
          let frameWidth := width (image (canvases page !!! inputCanvas)) in
          let frameHeight := height (image (canvases page !!! inputCanvas)) in
          if (frameWidth =? 0) || (frameHeight =? 0) then PassThrough page else
          match resize frameWidth frameHeight (self, page) with
          | (Some e, s) => Breaks e s
          | (None, s) =>
              let doScale := negb (PrimFloat.eqb (scaleFactor (fst s)) 1) in
              Enters inputCanvas doScale s
          end
      end
  end.

(** [process(buffers)].  The array is passed by reference; the result is how
    the call ends, the processor and the page after it, and the arrays.  The
    assignment [buffers[0] = ...] of line 175 finds an element to replace:
    the call has read [buffers[0]] by then. *)
Definition process (t : Tick) (buffers : loc) (self : Processor) (page : Page)
    (arrays : Arrays) : Outcome * (Processor * Page) * Arrays :=
  match enter buffers self page arrays with
  | PassThrough page' => (Returned buffers, (self, page'), arrays)
  | Breaks e s => (Thrown e, s, arrays)
  | Enters inputCanvas doScale s =>
      match tryBlock t inputCanvas doScale s with
      | (Throw e, (self', page')) =>
          (Returned buffers,
           (self', logged "INFO SegmentationFilter::process failed" page'),
           arrays)
      | (Suspend, s') => (Pending, s', arrays)
      | (Normal _, (self', page')) =>
          (Returned buffers, (self', page'),
           <[buffers := <[0%nat := canvasVideoFrameBuffer self']> (arrays !!! buffers)]> arrays)
      end
  end.

(** [destroy()].  The output buffer is a value here: its [destroy()] shows in
    the field, not in an array that still holds the buffer.  The backend is
    closed ([close]) and dropped in the same breath, so only the drop shows. *)
Definition destroy (self : Processor) : Processor :=
  let self := set_canvasVideoFrameBuffer {| asCanvasElement := None |} self in
  let self := set_selfieSegmentation None self in
  let self := set_targetCanvas None self in
  set_fpsTimer false self.

(** [updateScaleFactor(scale)]: the message it logs reads the width of the
    target canvas. *)
Definition updateScaleFactor (scale : float) : M unit :=
  assign (set_scaleFactor scale);;
  self ← this;
  match targetCanvas self with
  | None => throw (TypeError "this.targetCanvas is undefined")
  | Some _ => log "INFO SelfieSegmentationProcessor::updateScaleFactor"
  end.

(** The caller's side of one frame: a canvas that holds the frame, behind a
    buffer, in a fresh array of one element. *)
Definition supply (frame : Image) (page : Page) (arrays : Arrays) : loc * Page * Arrays :=
  let inputCanvas := fresh (dom (canvases page)) in
  let buffers := fresh (dom arrays) in
  (buffers,
   withCanvases (<[inputCanvas := {| image := frame; state := initialState; saved := [] |}]>
                   (canvases page)) page,
   <[buffers := [{| asCanvasElement := Some inputCanvas |}]]> arrays).


(** Calls of [process] one after the other, each in its tick on its array. *)
Fixpoint processAll (calls : list (Tick * loc)) (self : Processor) (page : Page)
    (arrays : Arrays) : list Outcome * (Processor * Page) * Arrays :=
  match calls with
  | [] => ([], (self, page), arrays)
  | (t, buffers) :: rest =>
      let '(o, (self', page'), arrays') := process t buffers self page arrays in
      let '(os, s, arrays'') := processAll rest self' page' arrays' in
      (o :: os, s, arrays'')
  end.

End Process.

(** The number of images given to the backend so far. *)
Definition submitted (p : Processor) : nat :=
  match selfieSegmentation p with
  | Some backend => length (sent backend)
  | None => 0%nat
  end.

(** ** Predicates of the statements *)

(** A frame [process] passes through untouched: its surface was released, or
    it has no width or no height. *)
Definition degenerate (page : Page) (frame : VideoFrameBuffer) : bool :=
  match asCanvasElement frame with
  | None => true
  | Some inputCanvas =>
      (width (image (canvases page !!! inputCanvas)) =? 0)
      || (height (image (canvases page !!! inputCanvas)) =? 0)
  end.

(** The width, the height and the drawing mode of a canvas. *)
Definition shape (c : Canvas) : Z * Z * CompositeOperation * Filter :=
  (width (image c), height (image c), globalCompositeOperation (state c),
   filter (state c)).

(** A processor as the constructor made it and [destroy] has not yet taken
    apart: it draws on its target canvas, its output buffer wraps that
    canvas, it holds the backend, and the target canvas, once sized, has the
    size of the last frame and a context in its default mode. *)
Record Alive (p : Processor) (page : Page) (target : loc) : Prop := {
  alive_target : targetCanvas p = Some target;
  alive_ctx : canvasCtx p = target;
  alive_buffer : canvasVideoFrameBuffer p = {| asCanvasElement := Some target |};
  alive_backend : selfieSegmentation p <> None;
  alive_canvas : is_Some (canvases page !! target);
  alive_size :
    sourceWidth p = 0 \/
    (width (image (canvases page !!! target)) = sourceWidth p
     /\ height (image (canvases page !!! target)) = sourceHeight p);
  alive_mode :
    globalCompositeOperation (state (canvases page !!! target)) = SourceOver
    /\ filter (state (canvases page !!! target)) = FilterNone
}.

(** The state in which [process] reaches the compositor for a frame that is
    not its own output: the target canvas has the size of the frame and a
    context in its default mode. *)
Record Framed (p : Processor) (page : Page) (ic target : loc) : Prop := {
  framed_target : targetCanvas p = Some target;
  framed_ctx : canvasCtx p = target;
  framed_apart : ic <> target;
  framed_width :
    width (image (canvases page !!! target)) = width (image (canvases page !!! ic));
  framed_height :
    height (image (canvases page !!! target)) = height (image (canvases page !!! ic));
  framed_mode :
    globalCompositeOperation (state (canvases page !!! target)) = SourceOver
    /\ filter (state (canvases page !!! target)) = FilterNone
}.

(** The fields the body of the [try] never assigns. *)
Definition settings (p : Processor) :=
  (targetCanvas p, canvasCtx p, canvasVideoFrameBuffer p, sourceWidth p,
   sourceHeight p, blurAmount p, fps p, fpsTimer p, reduceFactor p,
   scaleFactor p, isReady p).

(** What a block of the [try] leaves as it was: the settings, whether there
    is a backend, the shape of every canvas, and every canvas but the one
    the processor draws on. *)
Record Step (s s' : Processor * Page) : Prop := {
  step_settings : settings (fst s') = settings (fst s);
  step_backend :
    selfieSegmentation (fst s') = None <-> selfieSegmentation (fst s) = None;
  step_shape : forall l,
    is_Some (canvases (snd s) !! l) ->
    is_Some (canvases (snd s') !! l)
    /\ shape (canvases (snd s') !!! l) = shape (canvases (snd s) !!! l);
  step_others : forall l,
    is_Some (canvases (snd s) !! l) -> l <> canvasCtx (fst s) ->
    canvases (snd s') !! l = canvases (snd s) !! l
}.

Definition respects {A : Type} (m : M A) : Prop := forall s, Step s (snd (m s)).



(** Every pixel of the image has the given alpha: 255 is fully opaque, 0 fully
    transparent. *)
Definition uniformAlpha (a : Z) (img : Image) : Prop :=
  forall x y, 0 <= x < width img -> 0 <= y < height img -> alpha (bitmap img x y) = a.

(** What the statements about masks ask of the browser's resampling: an image
    of one alpha everywhere stays so when stretched. *)
Definition ResamplingKeepsAlpha {browser : Browser} : Prop :=
  forall img dw dh a,
    0 < width img -> 0 < height img -> uniformAlpha a img ->
    forall x y, 0 <= x < dw -> 0 <= y < dh -> alpha (resample img dw dh x y) = a.

(** Whether a call that runs the inference gets as far as its [await]: the
    scaled canvas, if one is made, has a 2D context, and there is a backend
    to send to. *)
Definition awaits (t : Tick) (doScale : bool) (p : Processor) : bool :=
  (negb doScale || context2d t)
  && match selfieSegmentation p with Some _ => true | None => false end.

(** The tick in which [send] is accepted and all else is the same. *)
Definition accepted (t : Tick) : Tick :=
  {| context2d := context2d t; sendRejects := false; delivery := delivery t |}.

(** The fields no call of [process] assigns. *)
Definition configuration (p : Processor) :=
  (targetCanvas p, canvasCtx p, canvasVideoFrameBuffer p, blurAmount p, fps p,
   fpsTimer p, reduceFactor p, scaleFactor p, isReady p).

(** ** Pieces of the proofs *)

(** A canvas between [save] and [restore]: the size and the stack stay. *)
Definition within (c0 c : Canvas) : Prop :=
  width (image c) = width (image c0) /\ height (image c) = height (image c0)
  /\ saved c = state c0 :: saved c0.

(** The state in which a live processor reaches its [try]. *)
Definition entered (w h : Z) (p : Processor) (page : Page) (target : loc)
  : Processor * Page :=
  if negb (sourceWidth p =? w) || negb (sourceHeight p =? h)
  then (set_source w h p, withCanvases (<[target := resized w h]> (canvases page)) page)
  else (p, page).

(** Two states that differ in the console at most. *)
Definition consoleApart (s1 s2 : Processor * Page) : Prop :=
  fst s1 = fst s2 /\ canvases (snd s1) = canvases (snd s2).

(** Two computations that do the same from such states. *)
Definition alike {A : Type} (m1 m2 : M A) : Prop :=
  forall s1 s2, consoleApart s1 s2 ->
    fst (m1 s1) = fst (m2 s2) /\ consoleApart (snd (m1 s1)) (snd (m2 s2)).

Section Pieces.

Context {browser : Browser}.

(** The rest of the [try] once the mask of the frame is known. *)
Definition finish (ic : loc) (mask : option GpuBuffer) : M unit :=
  assign countFrame;;
  match mask with
  | Some mask => compositePasses ic mask;; drawFps
  | None => mret tt
  end.

(** The target canvas after lines 148 to 165, for a frame that is another
    canvas. *)
Definition composited (blurAmount : Z) (src : Image) (mask : GpuBuffer) (c : Canvas)
  : Canvas :=
  let w := width (image c) in
  let h := height (image c) in
  let c := save c in
  let c := clearRect w h c in
  let c := drawImage mask w h c in
  let c := setGlobalCompositeOperation SourceIn c in
  let c := drawImage src w h c in
  let c := setGlobalCompositeOperation DestinationOver c in
  let c := if 0 <? blurAmount then setFilter (FilterBlur blurAmount) c else c in
  let c := drawImage src (width (image c)) (height (image c)) c in
  restore c.

(** The target canvas after lines 167 and 168. *)
Definition labelled (fps : float) (c : Canvas) : Canvas :=
  let c := setFont "12px serif" c in
  withImage (fillText (font (state c)) fps (image c)) c.

End Pieces.

(** ** Sample data *)

(** A browser that resamples to the nearest pixel, blurs by averaging the two
    pixels at the distance of the radius, and draws the frame rate as one
    black pixel. *)
Definition nearest (img : Image) (dw dh : Z) : Bitmap :=
  fun x y => bitmap img (x * width img / dw) (y * height img / dh).

Definition average (a b : Pixel) : Pixel :=
  {| red := (red a + red b) / 2; green := (green a + green b) / 2;
     blue := (blue a + blue b) / 2; alpha := (alpha a + alpha b) / 2 |}.

Definition pairBlur (r : Z) (img : Image) : Bitmap :=
  fun x y => average (bitmap img (x - r) y) (bitmap img (x + r) y).

Definition nearestScaled (f : float) (img : Image) (w h : Z) : Bitmap :=
  fun x y => bitmap img (Number.truncate (Number.of_Z x / f))
                        (Number.truncate (Number.of_Z y / f)).

Definition onePixelText (font : string) (fps : float) (img : Image) : Bitmap :=
  fun x y => if (x =? 20) && (y =? 20)
             then {| red := 0; green := 0; blue := 0; alpha := 255 |}
             else bitmap img x y.

Definition sampleBrowser : Browser :=
  {| resample := nearest; blur := pairBlur; scaleDraw := nearestScaled;
     fillText := onePixelText |}.

Definition emptyPage : Page := {| canvases := ∅; console := [] |}.

(** A frame or a mask of one alpha whose colours tell the pixels apart. *)
Definition gradient (w h a : Z) : Image :=
  {| width := w; height := h;
     bitmap := fun x y => {| red := x; green := y; blue := 7; alpha := a |} |}.

(** A tick in which nothing fails and the backend delivers [mask]. *)
Definition quiet (mask : option GpuBuffer) : Tick :=
  {| context2d := true; sendRejects := false; delivery := Delivers mask |}.

(** A frame of 4 by 4 opaque pixels, a mask of 2 by 2, and runs of one and of
    three such frames, each delivered its mask. *)
Definition sampleFrame : Image := gradient 4 4 255.

Definition sampleMask : GpuBuffer := gradient 2 2 255.



(** A processor of the given period as the constructor leaves it, and after
    the backend came up. *)
Definition fresh_processor (period : Z) : Processor * Page :=
  constructor period 7 emptyPage.

Definition ready_processor (period : Z) : Processor * Page :=
  (initialized (fst (fresh_processor period)), snd (fresh_processor period)).

(** A processor scaled to one half before the backend came up. *)
Definition halved_processor : Processor * Page :=
  let s := snd (updateScaleFactor 0.5%float (fresh_processor 1)) in
  (initialized (fst s), snd s).

(** A processor of the given blur strength as it reaches the compositor with
    the sample frame. *)
Definition framed_processor (strength : Z) : Processor * Page :=
  let s := constructor 1 strength emptyPage in
  entered 4 4 (initialized (fst s)) (snd (fst (supply sampleFrame (snd s) ∅))) 1%positive.

(** A tick in which the backend answers with a rejection. *)
Definition rejecting : Tick :=
  {| context2d := true; sendRejects := false;
     delivery := Rejects (Rejection "no result") |}.

(** A processor of period 2 after its first frame: it holds the mask of that
    frame, and its next frame skips the inference. *)
Definition coasting_processor : Processor * Page :=
  let s := supply sampleFrame (snd (ready_processor 2)) ∅ in
  snd (fst (process (browser := sampleBrowser) (quiet (Some sampleMask)) (fst (fst s))
              (fst (ready_processor 2)) (snd (fst s)) (snd s))).

(** A processor whose scale factor was set to NaN. *)
Definition nan_scaled_processor : Processor * Page :=
  let s := snd (updateScaleFactor nan (fresh_processor 1)) in
  (initialized (fst s), snd (fst (supply sampleFrame (snd s) ∅))).

(** ** Stepping through a computation *)

Lemma Step_refl s : Step s s.
Proof. split; auto; tauto. Qed.

Lemma Step_trans s1 s2 s3 : Step s1 s2 -> Step s2 s3 -> Step s1 s3.
Proof.
  intros [A1 B1 C1 D1] [A2 B2 C2 D2].
  assert (Hctx : canvasCtx (fst s2) = canvasCtx (fst s1)).
  { unfold settings in A1. congruence. }
  split.
  - congruence.
  - tauto.
  - intros l Hl. destruct (C1 l Hl) as [Hl2 E1]. destruct (C2 l Hl2) as [Hl3 E2].
    split; [done|congruence].
  - intros l Hl Hne. destruct (C1 l Hl) as [Hl2 _].
    rewrite D2; [auto | done | congruence].
Qed.

Lemma respects_ret {A} (a : A) : respects (mret a).
Proof. intros s. apply Step_refl. Qed.

Lemma respects_bind {A B} (m : M A) (k : A -> M B) :
  respects m -> (forall a, respects (k a)) -> respects (m ≫= k).
Proof.
  intros Hm Hk s. unfold mbind, M_bind. specialize (Hm s).
  destruct (m s) as [[a|e|] s']; cbn [snd] in *; [|done|done].
  eapply Step_trans; [exact Hm|apply Hk].
Qed.

Lemma respects_this : respects this.
Proof. intros s. apply Step_refl. Qed.

Lemma respects_throw {A} e : respects (throw (A:=A) e).
Proof. intros s. apply Step_refl. Qed.

Lemma respects_suspend {A} : respects (suspend (A:=A)).
Proof. intros s. apply Step_refl. Qed.

Lemma respects_log line : respects (log line).
Proof. intros [p page]. split; cbn; auto; tauto. Qed.

Lemma respects_assign (f : Processor -> Processor) :
  (forall p, settings (f p) = settings p) ->
  (forall p, selfieSegmentation (f p) = None <-> selfieSegmentation p = None) ->
  respects (assign f).
Proof. intros Hf Hb [p page]. split; cbn; auto. Qed.

(** Rewriting one step of a computation at a time. *)
Lemma bind_this {B} (k : Processor -> M B) p page :
  (this ≫= k) (p, page) = k p (p, page).
Proof. reflexivity. Qed.

Lemma bind_assign {B} f (k : unit -> M B) p page :
  (assign f ≫= k) (p, page) = k tt (f p, page).
Proof. reflexivity. Qed.

Lemma bind_ret {A B} (a : A) (k : A -> M B) s : (mret a ≫= k) s = k a s.
Proof. reflexivity. Qed.

Lemma bind_throw {A B} e (k : A -> M B) s : (throw e ≫= k) s = (Throw e, s).
Proof. reflexivity. Qed.

Lemma bind_log {B} line (k : unit -> M B) p page :
  (log line ≫= k) (p, page) = k tt (p, logged line page).
Proof. reflexivity. Qed.

Lemma bind_canvas {B} l (k : Canvas -> M B) p page :
  (canvas l ≫= k) (p, page) = k (canvases page !!! l) (p, page).
Proof. reflexivity. Qed.

Lemma bind_update {B} l f (k : unit -> M B) p page :
  (update l f ≫= k) (p, page)
  = k tt (p, withCanvases (<[l := f (canvases page !!! l)]> (canvases page)) page).
Proof. reflexivity. Qed.

Lemma bind_createElement {B} (k : loc -> M B) p page :
  (createElement ≫= k) (p, page)
  = k (fresh (dom (canvases page)))
      (p, withCanvases (<[fresh (dom (canvases page)) := newCanvas]> (canvases page)) page).
Proof. reflexivity. Qed.

Lemma run_update l f p page :
  update l f (p, page)
  = (Normal tt, (p, withCanvases (<[l := f (canvases page !!! l)]> (canvases page)) page)).
Proof. reflexivity. Qed.

Lemma written_same l c (m : gmap positive Canvas) page f :
  withCanvases (<[l := f (canvases (withCanvases (<[l := c]> m) page) !!! l)]>
                  (canvases (withCanvases (<[l := c]> m) page)))
               (withCanvases (<[l := c]> m) page)
  = withCanvases (<[l := f c]> m) page.
Proof.
  unfold withCanvases. cbn [canvases console].
  rewrite lookup_total_insert_eq, insert_insert_eq. reflexivity.
Qed.

Lemma read_same l c (m : gmap positive Canvas) page :
  canvases (withCanvases (<[l := c]> m) page) !!! l = c.
Proof. cbn. apply lookup_total_insert_eq. Qed.

Lemma read_other l l' c (m : gmap positive Canvas) page :
  l <> l' -> canvases (withCanvases (<[l := c]> m) page) !!! l' = m !!! l'.
Proof. intros. cbn. by apply lookup_total_insert_ne. Qed.

Lemma bind_bind {A B C} (m : M A) (f : A -> M B) (g : B -> M C) s :
  ((m ≫= f) ≫= g) s = (m ≫= fun x => f x ≫= g) s.
Proof. unfold mbind, M_bind. destruct (m s) as [[a|e|] s']; reflexivity. Qed.

Ltac step :=
  first [ rewrite bind_bind | rewrite bind_this | rewrite bind_assign | rewrite bind_ret
        | rewrite bind_throw | rewrite bind_log
        | rewrite bind_canvas | rewrite bind_update | rewrite bind_createElement
        | rewrite run_update ];
  rewrite ?written_same, ?read_same, ?read_other by done.


Lemma within_save c0 : within c0 (save c0).
Proof. repeat split. Qed.

Lemma within_withImage c0 c b : within c0 c -> within c0 (withImage b c).
Proof. intros (?&?&?). repeat split; done. Qed.

Lemma within_withState c0 c st : within c0 c -> within c0 (withState st c).
Proof. intros (?&?&?). repeat split; done. Qed.

Lemma shape_restore c0 c : within c0 c -> shape (restore c) = shape c0.
Proof.
  intros (Hw&Hh&Hs). unfold restore, shape. rewrite Hs. cbn. congruence.
Qed.

Lemma updated_page_step p page l c :
  l = canvasCtx p ->
  (is_Some (canvases page !! l) -> shape c = shape (canvases page !!! l)) ->
  Step (p, page) (p, withCanvases (<[l := c]> (canvases page)) page).
Proof.
  intros -> Hc. split; cbn [fst snd canvases withCanvases]; auto; try tauto.
  - intros l Hl. destruct (decide (l = canvasCtx p)) as [->|Hne].
    + rewrite lookup_insert_eq, lookup_total_insert_eq. split; [eauto|auto].
    + rewrite lookup_insert_ne, lookup_total_insert_ne by done. done.
  - intros l Hl Hne. by rewrite lookup_insert_ne.
Qed.

Lemma Step_processor p p' page page' :
  settings p' = settings p ->
  (selfieSegmentation p' = None <-> selfieSegmentation p = None) ->
  canvases page' = canvases page ->
  Step (p, page) (p', page').
Proof.
  intros Hs Hb Hc. split; cbn [fst snd]; auto; rewrite Hc; auto.
Qed.

Lemma enter_reads_first buffers self page arrays arrays2 :
  (arrays2 !!! buffers) !! 0%nat = (arrays !!! buffers) !! 0%nat ->
  enter buffers self page arrays2 = enter buffers self page arrays.
Proof. intros E. unfold enter. by rewrite E. Qed.

Lemma enter_has_first buffers self page arrays ic ds s :
  enter buffers self page arrays = Enters ic ds s ->
  exists first, (arrays !!! buffers) !! 0%nat = Some first
                /\ asCanvasElement first = Some ic
                /\ degenerate page first = false.
Proof.
  unfold enter, degenerate. destruct (isReady self); cbn [negb]; [|discriminate].
  destruct ((arrays !!! buffers) !! 0%nat) as [first|]; [|discriminate].
  destruct (asCanvasElement first) as [c|] eqn:Ec; [|discriminate].
  destruct (_ || _) eqn:Ed; [discriminate|].
  destruct (resize _ _ _) as [[e|] s']; [discriminate|].
  intros [= <- _ _]. exists first. rewrite Ec. by rewrite Ed.
Qed.

(** A degenerate frame leaves [process] at an early return. *)
Lemma enter_degenerate buffers self page arrays first :
  (arrays !!! buffers) !! 0%nat = Some first ->
  degenerate page first = true ->
  exists page',
    enter buffers self page arrays = PassThrough page'
    /\ canvases page' = canvases page.
Proof.
  intros Hfirst Hdeg. unfold enter.
  destruct (isReady self); cbn [negb]; [|eauto].
  rewrite Hfirst. unfold degenerate in Hdeg.
  destruct (asCanvasElement first) as [inputCanvas|]; [|eauto].
  rewrite Hdeg. eauto.
Qed.

Section Blocks.
Context {browser : Browser}.

Lemma within_drawImage c0 c src w h : within c0 c -> within c0 (drawImage src w h c).
Proof. apply within_withImage. Qed.

Lemma within_clearRect c0 c w h : within c0 c -> within c0 (clearRect w h c).
Proof. apply within_withImage. Qed.

Lemma within_setGlobalCompositeOperation c0 c op :
  within c0 c -> within c0 (setGlobalCompositeOperation op c).
Proof. apply within_withState. Qed.

Lemma within_setFilter c0 c f : within c0 c -> within c0 (setFilter f c).
Proof. apply within_withState. Qed.

Lemma respects_compositePasses ic mask : respects (compositePasses ic mask).
Proof.
  intros [p page]. unfold compositePasses. step.
  destruct (targetCanvas p) as [target|]; [|apply Step_refl].
  do 8 step.
  destruct (0 <? blurAmount p); repeat step; cbn [snd];
    (apply updated_page_step; [done|]); intros _; apply shape_restore;
    repeat first [ apply within_save | apply within_drawImage | apply within_clearRect
                 | apply within_setGlobalCompositeOperation | apply within_setFilter ].
Qed.

Lemma respects_drawFps : respects drawFps.
Proof.
  intros [p page]. unfold drawFps. repeat step. cbn [snd].
  apply updated_page_step; [done|]. intros _. reflexivity.
Qed.

Lemma scaleFrame_run t ic p page :
  exists c,
    scaleFrame t ic (p, page)
    = ((if context2d t then Normal (fresh (dom (canvases page)))
        else Throw (TypeError "scaledCtx is null")),
       (p, withCanvases (<[fresh (dom (canvases page)) := c]> (canvases page)) page))
    /\ (is_Some (canvases page !! ic) ->
        width (image c)
        = dimension 300 (Number.of_Z (width (image (canvases page !!! ic))) * scaleFactor p)
        /\ height (image c)
           = dimension 150 (Number.of_Z (height (image (canvases page !!! ic))) * scaleFactor p)).
Proof.
  unfold scaleFrame. do 7 step.
  destruct (context2d t).
  - repeat step. eexists. split; [reflexivity|].
    intros Hic.
    assert (fresh (dom (canvases page)) <> ic) as Hne.
    { intros <-. apply elem_of_dom in Hic. by apply is_fresh in Hic. }
    rewrite !read_other by done. split; reflexivity.
  - repeat step. eexists. split; [reflexivity|].
    intros Hic.
    assert (fresh (dom (canvases page)) <> ic) as Hne.
    { intros <-. apply elem_of_dom in Hic. by apply is_fresh in Hic. }
    rewrite !read_other by done. split; reflexivity.
Qed.


Lemma respects_scaleFrame t ic : respects (scaleFrame t ic).
Proof.
  intros [p page]. destruct (scaleFrame_run t ic p page) as (c & -> & _). cbn [snd].
  pose proof (is_fresh (dom (canvases page))) as Hfresh.
  split; cbn [fst snd canvases withCanvases]; auto; try tauto.
  - intros l Hl.
    assert (fresh (dom (canvases page)) <> l) by (intros <-; by apply elem_of_dom in Hl).
    rewrite lookup_insert_ne, lookup_total_insert_ne by done. done.
  - intros l Hl _.
    assert (fresh (dom (canvases page)) <> l) by (intros <-; by apply elem_of_dom in Hl).
    by rewrite lookup_insert_ne.
Qed.

Lemma respects_sendImage t x : respects (sendImage t x).
Proof.
  intros [p page]. unfold sendImage. step.
  destruct (selfieSegmentation p) as [backend|] eqn:E; [|apply Step_refl].
  step. apply (Step_trans _ (set_selfieSegmentation (Some (send x backend)) p, page)).
  - apply Step_processor; [reflexivity| |reflexivity]. cbn. rewrite E. split; discriminate.
  - destruct (sendRejects t); [apply respects_log|apply Step_refl].
Qed.

Lemma respects_awaitMask t : respects (awaitMask t).
Proof.
  unfold awaitMask. destruct (delivery t).
  - apply respects_bind; [|intros; apply respects_ret].
    apply respects_assign; intros; reflexivity.
  - apply respects_throw.
  - apply respects_suspend.
Qed.

Lemma respects_runInference t ic ds : respects (runInference t ic ds).
Proof.
  unfold runInference.
  apply respects_bind; [apply respects_assign; intros; reflexivity|intros _].
  apply respects_bind.
  { destruct ds; [apply respects_scaleFrame|apply respects_ret]. }
  intros x.
  apply respects_bind; [apply respects_assign; intros; reflexivity|intros _].
  apply respects_bind; [apply respects_sendImage|intros _].
  apply respects_bind; [apply respects_awaitMask|intros mask].
  apply respects_bind; [apply respects_assign; intros; reflexivity|intros _].
  apply respects_ret.
Qed.

Lemma respects_tryBlock t ic ds : respects (tryBlock t ic ds).
Proof.
  unfold tryBlock.
  apply respects_bind; [apply respects_this|intros self].
  apply respects_bind.
  { destruct (shouldRunInference self); [apply respects_runInference|apply respects_ret]. }
  intros mask.
  apply respects_bind; [apply respects_assign; intros; reflexivity|intros _].
  destruct mask as [mask|]; [|apply respects_ret].
  apply respects_bind; [apply respects_compositePasses|intros _; apply respects_drawFps].
Qed.


Lemma bind_normal {A B} (m : M A) (k : A -> M B) s a s' :
  m s = (Normal a, s') -> (m ≫= k) s = k a s'.
Proof. intros E. unfold mbind, M_bind. by rewrite E. Qed.

Lemma compositePasses_normal ic mask p page target :
  targetCanvas p = Some target ->
  exists page', compositePasses ic mask (p, page) = (Normal tt, (p, page')).
Proof.
  intros Ht. unfold compositePasses. step. rewrite Ht. do 8 step.
  destruct (0 <? blurAmount p); repeat step; eauto.
Qed.

Lemma compositePasses_destroyed ic mask p page :
  targetCanvas p = None ->
  compositePasses ic mask (p, page)
  = (Throw (TypeError "targetCanvas is undefined"), (p, page)).
Proof. intros Ht. unfold compositePasses. step. by rewrite Ht. Qed.

Lemma drawFps_normal p page :
  exists page', drawFps (p, page) = (Normal tt, (p, page')).
Proof. unfold drawFps. repeat step. eauto. Qed.

(** The frame that goes to the backend, and the processor as the [await]
    finds and leaves it. *)
Lemma runInference_run t ic ds p page backend :
  selfieSegmentation p = Some backend ->
  (ds = true -> context2d t = true) ->
  exists handed page1,
    (if ds
     then handed = fresh (dom (canvases page))
          /\ exists c, page1 = withCanvases (<[handed := c]> (canvases page)) page
             /\ (is_Some (canvases page !! ic) ->
                 width (image c)
                 = dimension 300 (Number.of_Z (width (image (canvases page !!! ic))) * scaleFactor p)
                 /\ height (image c)
                    = dimension 150 (Number.of_Z (height (image (canvases page !!! ic))) * scaleFactor p))
     else handed = ic /\ page1 = page)
    /\ let sending :=
         set_selfieSegmentation (Some (send handed backend))
           (set_mask_ (DeferredObservable.whenNext (mask_ p)) (resetCount p)) in
       let page2 :=
         if sendRejects t
         then logged "ERROR SelfieSegmentationProcessor::selfieSegmentation" page1
         else page1 in
       runInference t ic ds (p, page)
       = match delivery t with
         | Delivers mask =>
             (Normal mask, (set_frames (frames p + 1) (onResults mask sending), page2))
         | Rejects e => (Throw e, (sending, page2))
         | Never => (Suspend, (sending, page2))
         end.
Proof.
  intros Hb Hctx. unfold runInference. step.
  assert (Hsend : forall handed page1,
    (sendImage t handed ≫= fun _ => mask ← awaitMask t;
       assign (fun p0 => set_frames (frames p0 + 1) p0);; mret mask)
      (set_mask_ (DeferredObservable.whenNext (mask_ (resetCount p))) (resetCount p), page1)
    = match delivery t with
      | Delivers mask =>
          (Normal mask,
           (set_frames (frames p + 1)
              (onResults mask
                 (set_selfieSegmentation (Some (send handed backend))
                    (set_mask_ (DeferredObservable.whenNext (mask_ p)) (resetCount p)))),
            if sendRejects t
            then logged "ERROR SelfieSegmentationProcessor::selfieSegmentation" page1
            else page1))
      | Rejects e =>
          (Throw e,
           (set_selfieSegmentation (Some (send handed backend))
              (set_mask_ (DeferredObservable.whenNext (mask_ p)) (resetCount p)),
            if sendRejects t
            then logged "ERROR SelfieSegmentationProcessor::selfieSegmentation" page1
            else page1))
      | Never =>
          (Suspend,
           (set_selfieSegmentation (Some (send handed backend))
              (set_mask_ (DeferredObservable.whenNext (mask_ p)) (resetCount p)),
            if sendRejects t
            then logged "ERROR SelfieSegmentationProcessor::selfieSegmentation" page1
            else page1))
      end).
  { intros handed page1. unfold sendImage, awaitMask. do 2 step.
    cbn [selfieSegmentation set_mask_ resetCount set_runningCount]. rewrite Hb.
    destruct (sendRejects t), (delivery t); reflexivity. }
  destruct ds.
  - destruct (scaleFrame_run t ic (resetCount p) page) as (c & Hrun & Hdims).
    rewrite Hctx in Hrun by done.
    rewrite (bind_normal _ _ _ _ _ Hrun). step.
    exists (fresh (dom (canvases page))), (withCanvases (<[fresh (dom (canvases page)) := c]> (canvases page)) page).
    split; [split; [done|]; exists c; split; [done|exact Hdims]|].
    cbv zeta. apply Hsend.
  - step. step. exists ic, page. split; [done|]. cbv zeta. apply Hsend.
Qed.




Lemma tryBlock_finish t ic ds p page :
  tryBlock t ic ds (p, page)
  = ((if shouldRunInference p then runInference t ic ds
      else mret (DeferredObservable.value (mask_ p))) ≫= finish ic) (p, page).
Proof. reflexivity. Qed.

Lemma respects_finish ic mask : respects (finish ic mask).
Proof.
  unfold finish.
  apply respects_bind; [apply respects_assign; intros; reflexivity|intros _].
  destruct mask as [mask|]; [|apply respects_ret].
  apply respects_bind; [apply respects_compositePasses|intros _; apply respects_drawFps].
Qed.

Lemma resize_eq w h p page target :
  targetCanvas p = Some target ->
  resize w h (p, page)
  = (None,
     if negb (sourceWidth p =? w) || negb (sourceHeight p =? h)
     then (set_source w h p,
           withCanvases (<[target := resized w h]> (canvases page)) page)
     else (p, page)).
Proof.
  intros Ht. unfold resize.
  destruct (negb (sourceWidth p =? w) || negb (sourceHeight p =? h)); [|done].
  cbn [targetCanvas set_source sourceWidth sourceHeight]. rewrite Ht.
  rewrite written_same. reflexivity.
Qed.

Lemma resize_destroyed w h p page :
  targetCanvas p = None ->
  resize w h (p, page)
  = if negb (sourceWidth p =? w) || negb (sourceHeight p =? h)
    then (Some (TypeError "this.targetCanvas is undefined"), (set_source w h p, page))
    else (None, (p, page)).
Proof.
  intros Ht. unfold resize.
  destruct (negb (sourceWidth p =? w) || negb (sourceHeight p =? h)); [|done].
  cbn [targetCanvas set_source]. by rewrite Ht.
Qed.


Lemma enter_frame buffers p page arrays first ic target :
  isReady p = true ->
  (arrays !!! buffers) !! 0%nat = Some first ->
  asCanvasElement first = Some ic ->
  degenerate page first = false ->
  targetCanvas p = Some target ->
  enter buffers p page arrays
  = Enters ic (negb (PrimFloat.eqb (scaleFactor p) 1))
      (entered (width (image (canvases page !!! ic)))
               (height (image (canvases page !!! ic))) p page target).
Proof.
  intros Hr Hf Hc Hd Ht. unfold enter. rewrite Hr, Hf, Hc. cbn [negb].
  unfold degenerate in Hd. rewrite Hc in Hd. rewrite Hd.
  rewrite (resize_eq _ _ _ _ _ Ht). unfold entered.
  destruct (negb _ || negb _); reflexivity.
Qed.

Lemma entered_alive w h p page target :
  w <> 0 -> Alive p page target ->
  Alive (fst (entered w h p page target)) (snd (entered w h p page target)) target
  /\ width (image (canvases (snd (entered w h p page target)) !!! target)) = w
  /\ height (image (canvases (snd (entered w h p page target)) !!! target)) = h
  /\ (forall l, l <> target ->
      canvases (snd (entered w h p page target)) !! l = canvases page !! l)
  /\ settings (fst (entered w h p page target))
     = settings (set_source w h p)
  /\ runningCount (fst (entered w h p page target)) = runningCount p
  /\ selfieSegmentation (fst (entered w h p page target)) = selfieSegmentation p
  /\ mask_ (fst (entered w h p page target)) = mask_ p.
Proof.
  intros Hw [Ht Hc Hb Hs Hcv Hsz Hm]. unfold entered.
  destruct (negb (sourceWidth p =? w) || negb (sourceHeight p =? h)) eqn:E;
    cbn [fst snd].
  - cbn [canvases withCanvases]. rewrite lookup_total_insert_eq.
    repeat split; try done.
    + cbn. by rewrite lookup_insert_eq.
    + cbn. rewrite lookup_total_insert_eq. by right.
    + cbn. by rewrite lookup_total_insert_eq.
    + cbn. by rewrite lookup_total_insert_eq.
    + intros l Hl. by rewrite lookup_insert_ne.
  - apply orb_false_iff in E as [E1 E2].
    apply negb_false_iff, Z.eqb_eq in E1. apply negb_false_iff, Z.eqb_eq in E2.
    destruct Hsz as [Hz|[Hsw Hsh]]; [congruence|].
    repeat split; try done; try congruence.
    all: try (by right).
    all: try (unfold settings; cbn; congruence).
    all: apply Hm.
Qed.

Lemma Alive_step p page p' page' target :
  Alive p page target -> Step (p, page) (p', page') -> Alive p' page' target.
Proof.
  intros [Ht Hc Hb Hs Hcv Hsz Hm] [HS HB HSh HO]. cbn [fst snd] in *.
  unfold settings in HS. injection HS as E1 E2 E3 E4 E5 _ _ _ _ _ _.
  destruct (HSh target Hcv) as [Hcv' Hshape].
  unfold shape in Hshape. injection Hshape as F1 F2 F3 F4.
  split; try congruence.
  intros E. apply Hs. by apply HB.
Qed.

Lemma Alive_logged p page target line :
  Alive p page target -> Alive p (logged line page) target.
Proof. intros [? ? ? ? ? ? ?]. split; done. Qed.





Lemma bind_thrown {A B} (m : M A) (k : A -> M B) s e s' :
  m s = (Throw e, s') -> (m ≫= k) s = (Throw e, s').
Proof. intros E. unfold mbind, M_bind. by rewrite E. Qed.

Lemma bind_suspended {A B} (m : M A) (k : A -> M B) s s' :
  m s = (Suspend, s') -> (m ≫= k) s = (Suspend, s').
Proof. intros E. unfold mbind, M_bind. by rewrite E. Qed.

Lemma finish_run ic mask q page :
  exists r page',
    finish ic mask (q, page) = (r, (countFrame q, page'))
    /\ (forall target, targetCanvas q = Some target -> r = Normal tt).
Proof.
  unfold finish. step. destruct mask as [mask|]; [|by exists (Normal tt), page].
  destruct (targetCanvas q) as [target|] eqn:Et.
  - destruct (compositePasses_normal ic mask (countFrame q) page target Et) as [page1 E1].
    destruct (drawFps_normal (countFrame q) page1) as [page2 E2].
    exists (Normal tt), page2. by rewrite (bind_normal _ _ _ _ _ E1).
  - exists (Throw (TypeError "targetCanvas is undefined")), page. split; [|done].
    apply bind_thrown. by apply compositePasses_destroyed.
Qed.

Lemma lookup_sized (page : Page) l :
  width (image (canvases page !!! l)) <> 0 -> is_Some (canvases page !! l).
Proof.
  rewrite lookup_total_alt. destruct (canvases page !! l); [eauto|]. by cbn.
Qed.

Lemma tryBlock_sends t ic ds p page target backend :
  Alive p page target ->
  selfieSegmentation p = Some backend ->
  shouldRunInference p = true ->
  (ds = true -> context2d t = true) ->
  is_Some (canvases page !! ic) ->
  exists handed r p' page',
    tryBlock t ic ds (p, page) = (r, (p', page'))
    /\ selfieSegmentation p' = Some (send handed backend)
    /\ (if ds
        then canvases page !! handed = None
             /\ width (image (canvases page' !!! handed))
                = dimension 300 (Number.of_Z (width (image (canvases page !!! ic))) * scaleFactor p)
             /\ height (image (canvases page' !!! handed))
                = dimension 150 (Number.of_Z (height (image (canvases page !!! ic))) * scaleFactor p)
        else handed = ic)
    /\ (forall l, is_Some (canvases page !! l) -> l <> target ->
        canvases page' !! l = canvases page !! l)
    /\ shape (canvases page' !!! target) = shape (canvases page !!! target)
    /\ settings p' = settings p
    /\ (forall mask, delivery t = Delivers mask -> r = Normal tt).
Proof.
  intros HA Hb Hgate Hctx Hic.
  rewrite tryBlock_finish, Hgate.
  destruct (runInference_run t ic ds p page backend Hb Hctx)
    as (handed & page1 & Hscaled & Hrun).
  cbv zeta in Hrun.
  set (sending := set_selfieSegmentation (Some (send handed backend))
                    (set_mask_ (DeferredObservable.whenNext (mask_ p)) (resetCount p))) in *.
  set (page2 := if sendRejects t
                then logged "ERROR SelfieSegmentationProcessor::selfieSegmentation" page1
                else page1) in *.
  assert (Hc2 : canvases page2 = canvases page1) by (unfold page2; by destruct (sendRejects t)).
  pose proof (alive_canvas _ _ _ HA) as Htc.
  pose proof (alive_ctx _ _ _ HA) as Hcx.
  (* the page after the scaled canvas was made *)
  assert (Hpage1 :
    (forall l, is_Some (canvases page !! l) ->
       canvases page1 !! l = canvases page !! l)
    /\ (if ds
        then canvases page !! handed = None
             /\ width (image (canvases page1 !!! handed))
                = dimension 300 (Number.of_Z (width (image (canvases page !!! ic))) * scaleFactor p)
             /\ height (image (canvases page1 !!! handed))
                = dimension 150 (Number.of_Z (height (image (canvases page !!! ic))) * scaleFactor p)
             /\ is_Some (canvases page1 !! handed)
        else handed = ic)).
  { destruct ds.
    - destruct Hscaled as (-> & c & -> & Hdims).
      pose proof (is_fresh (dom (canvases page))) as Hfresh.
      split.
      + intros l Hl. cbn. rewrite lookup_insert_ne; [done|].
        intros <-. by apply elem_of_dom in Hl.
      + split; [by apply not_elem_of_dom|].
        cbn. rewrite lookup_total_insert_eq, lookup_insert_eq.
        destruct (Hdims Hic). eauto.
    - destruct Hscaled as (-> & ->). done. }
  destruct Hpage1 as [Hsame Hhanded].
  assert (Hfinal : forall q mask, settings q = settings p ->
    selfieSegmentation q = Some (send handed backend) ->
    exists r p' page',
      finish ic mask (q, page2) = (r, (p', page'))
      /\ selfieSegmentation p' = Some (send handed backend)
      /\ settings p' = settings p
      /\ r = Normal tt
      /\ Step (q, page2) (p', page')).
  { intros q mask Hq Hqb.
    destruct (finish_run ic mask q page2) as (r & page' & E & Hr).
    exists r, (countFrame q), page'. split; [done|]. split; [done|]. split; [done|].
    split.
    - apply (Hr target). unfold settings in Hq. injection Hq as -> _ _ _ _ _ _ _ _ _ _.
      apply HA.
    - pose proof (respects_finish ic mask (q, page2)) as HS. by rewrite E in HS. }
  assert (Hstep : forall q p' page',
    settings q = settings p -> Step (q, page2) (p', page') ->
    (if ds
        then canvases page !! handed = None
             /\ width (image (canvases page' !!! handed))
                = dimension 300 (Number.of_Z (width (image (canvases page !!! ic))) * scaleFactor p)
             /\ height (image (canvases page' !!! handed))
                = dimension 150 (Number.of_Z (height (image (canvases page !!! ic))) * scaleFactor p)
        else handed = ic)
    /\ (forall l, is_Some (canvases page !! l) -> l <> target ->
        canvases page' !! l = canvases page !! l)
    /\ shape (canvases page' !!! target) = shape (canvases page !!! target)).
  { intros q p' page' Hq [_ _ HSh HO]. cbn [fst snd] in *. rewrite Hc2 in *.
    assert (Hqc : canvasCtx q = target).
    { unfold settings in Hq. injection Hq as _ -> _ _ _ _ _ _ _ _ _. done. }
    rewrite Hqc in HO.
    split; [|split].
    - destruct ds; [|done]. destruct Hhanded as (Hnone & Hw & Hh & Hsome).
      split; [done|].
      assert (handed <> target).
      { intros ->. rewrite Hnone in Htc. by destruct Htc. }
      rewrite !(lookup_total_alt (canvases page')), (HO handed) by done.
      rewrite <- !lookup_total_alt. done.
    - intros l Hl Hne. rewrite HO; [by apply Hsame| |done].
      rewrite Hsame by done. done.
    - destruct (HSh target) as [_ ->]; [by rewrite Hsame|].
      by rewrite !lookup_total_alt, Hsame. }
  destruct (delivery t) as [mask|e|] eqn:Hd.
  - rewrite (bind_normal _ _ _ _ _ Hrun).
    destruct (Hfinal (set_frames (frames p + 1) (onResults mask sending)) mask)
      as (r & p' & page' & E & Hb' & Hs' & -> & HS); [done|done|].
    exists handed, (Normal tt), p', page'. rewrite E.
    destruct (fun pf => Hstep _ _ _ pf HS) as (? & ? & ?); [reflexivity|].
    repeat split; done.
  - rewrite (bind_thrown _ _ _ _ _ Hrun).
    exists handed, (Throw e), sending, page2.
    destruct (Hstep sending sending page2 ltac:(reflexivity) (Step_refl _)) as (? & ? & ?).
    repeat split; done.
  - rewrite (bind_suspended _ _ _ _ Hrun).
    exists handed, Suspend, sending, page2.
    destruct (Hstep sending sending page2 ltac:(reflexivity) (Step_refl _)) as (? & ? & ?).
    repeat split; done.
Qed.


Lemma compositePasses_eq ic mask p page target :
  targetCanvas p = Some target -> canvasCtx p = target -> ic <> target ->
  compositePasses ic mask (p, page)
  = (Normal tt,
     (p, withCanvases
           (<[target := composited (blurAmount p) (image (canvases page !!! ic)) mask
                          (canvases page !!! target)]> (canvases page)) page)).
Proof.
  intros Ht Hc Hne. unfold compositePasses. step. rewrite Ht, Hc. do 8 step.
  destruct (0 <? blurAmount p) eqn:E; repeat step; unfold composited; rewrite E;
    reflexivity.
Qed.

(** The alpha of the mask as it is drawn over the whole target. *)
Lemma drawn_alpha mask w h a :
  ResamplingKeepsAlpha -> 0 < width mask -> 0 < height mask -> uniformAlpha a mask ->
  forall x y, 0 <= x < w -> 0 <= y < h -> alpha (bitmap (drawn mask w h) x y) = a.
Proof.
  intros HR Hw Hh Hu x y Hx Hy. unfold drawn. cbn [bitmap].
  destruct ((width mask =? w) && (height mask =? h)) eqn:E.
  - apply andb_true_iff in E as [E1 E2]. apply Z.eqb_eq in E1, E2.
    apply Hu; lia.
  - by apply HR.
Qed.

Lemma inside_true w h x y : 0 <= x < w -> 0 <= y < h -> inside w h x y = true.
Proof. intros. unfold inside. repeat (apply andb_true_iff; split); lia. Qed.

(** A pixel of the target after the passes. *)
Lemma composited_pixel blurAmount src mask c x y :
  width (image c) = width src -> height (image c) = height src ->
  globalCompositeOperation (state c) = SourceOver -> filter (state c) = FilterNone ->
  0 <= x < width src -> 0 <= y < height src ->
  bitmap (image (composited blurAmount src mask c)) x y
  = (let masked := 0 <? alpha (bitmap (drawn mask (width src) (height src)) x y) in
     let kept := if masked then bitmap src x y else transparent in
     let under := if 0 <? blurAmount then blur blurAmount src x y else bitmap src x y in
     if 0 <? alpha kept then kept else under).
Proof.
  intros Hw Hh Hop Hf Hx Hy. unfold composited. rewrite Hw, Hh.
  destruct c as [[cw ch cb] [op f fn] sv]. cbn in Hw, Hh, Hop, Hf. subst.
  destruct src as [sw sh sb]. cbn [width height bitmap] in *.
  destruct (0 <? blurAmount);
    cbn; unfold drawn; cbn; rewrite !Z.eqb_refl; cbn;
    rewrite (inside_true _ _ _ _ Hx Hy); cbn;
    match goal with |- context [0 <? alpha (?m x y)] =>
      generalize (m x y); intros px end;
    destruct (0 <? alpha px) eqn:E; cbn; rewrite ?E; reflexivity.
Qed.


Lemma constructor_alive period strength page :
  Alive (fst (constructor period strength page)) (snd (constructor period strength page))
        (fresh (dom (canvases page))).
Proof.
  split; try reflexivity; cbn.
  - discriminate.
  - rewrite lookup_insert_eq. eauto.
  - by left.
  - by rewrite lookup_total_insert_eq.
Qed.

(** A live processor stays so through any call of [process]. *)
Lemma process_alive t buffers self page arrays target :
  Alive self page target ->
  Alive (fst (snd (fst (process t buffers self page arrays))))
        (snd (snd (fst (process t buffers self page arrays)))) target.
Proof.
  intros HA. pose proof (alive_target _ _ _ HA) as Ht. unfold process.
  destruct (enter buffers self page arrays) as [page'|e s|ic ds s] eqn:He.
  - unfold enter in He. destruct (isReady self); cbn [negb] in He; [|by injection He as <-].
    destruct (_ !! 0%nat) as [first|]; [|done].
    destruct (asCanvasElement first); [|injection He as <-; by apply Alive_logged].
    destruct (_ || _); [by injection He as <-|].
    by destruct (resize _ _ _) as [[?|] ?].
  - unfold enter in He. destruct (isReady self); cbn [negb] in He; [|done].
    destruct (_ !! 0%nat) as [first|]; [|by injection He as _ <-].
    destruct (asCanvasElement first); [|done].
    destruct (_ || _); [done|].
    by rewrite (resize_eq _ _ _ _ _ Ht) in He.
  - destruct (enter_has_first _ _ _ _ _ _ _ He) as (first & Hf & Hc & Hd).
    assert (Hr : isReady self = true).
    { unfold enter in He. by destruct (isReady self). }
    rewrite (enter_frame _ _ _ _ _ _ _ Hr Hf Hc Hd Ht) in He. injection He as _ <-.
    assert (Hw : width (image (canvases page !!! ic)) <> 0).
    { unfold degenerate in Hd. rewrite Hc in Hd. apply orb_false_iff in Hd as [Hd _].
      by apply Z.eqb_neq in Hd. }
    destruct (entered_alive _ (height (image (canvases page !!! ic))) _ _ _ Hw HA)
      as (HA1 & _).
    destruct (entered _ _ _ _ _) as [p1 page1]. cbn [fst snd] in HA1.
    pose proof (respects_tryBlock t ic ds (p1, page1)) as HS.
    destruct (tryBlock t ic ds (p1, page1)) as [[[]|e|] [p' page']]; cbn [fst snd] in *.
    + by eapply Alive_step.
    + apply Alive_logged. by eapply Alive_step.
    + by eapply Alive_step.
Qed.

(** A live processor reaches its [try] with the frame framed. *)
Lemma enter_framed buffers self page arrays target ic ds s :
  Alive self page target ->
  enter buffers self page arrays = Enters ic ds s ->
  ic <> target ->
  Framed (fst s) (snd s) ic target.
Proof.
  intros HA He Hne. pose proof (alive_target _ _ _ HA) as Ht.
  destruct (enter_has_first _ _ _ _ _ _ _ He) as (first & Hf & Hc & Hd).
  assert (Hr : isReady self = true).
  { unfold enter in He. by destruct (isReady self). }
  rewrite (enter_frame _ _ _ _ _ _ _ Hr Hf Hc Hd Ht) in He. injection He as _ <-.
  assert (Hw : width (image (canvases page !!! ic)) <> 0).
  { unfold degenerate in Hd. rewrite Hc in Hd. apply orb_false_iff in Hd as [Hd _].
    by apply Z.eqb_neq in Hd. }
  destruct (entered_alive _ (height (image (canvases page !!! ic))) _ _ _ Hw HA)
    as ([Ht1 Hc1 _ _ _ _ Hm1] & Hw1 & Hh1 & Hsame & _).
  destruct (entered _ _ _ _ _) as [p1 page1]. cbn [fst snd] in *.
  split; try done.
  - rewrite Hw1. by rewrite (lookup_total_alt (canvases page1) ic), Hsame, <- lookup_total_alt.
  - rewrite Hh1. by rewrite (lookup_total_alt (canvases page1) ic), Hsame, <- lookup_total_alt.
Qed.

(** Resampling to the nearest pixel keeps an alpha that is the same everywhere. *)
Lemma nearest_keeps_alpha : ResamplingKeepsAlpha (browser := sampleBrowser).
Proof.
  intros img dw dh a Hw Hh Hu x y Hx Hy. cbn. unfold nearest. apply Hu.
  - split; [apply Z.div_pos; nia|apply Z.div_lt_upper_bound; nia].
  - split; [apply Z.div_pos; nia|apply Z.div_lt_upper_bound; nia].
Qed.

End Blocks.

(** ** Pass-through *)

(** C3.  While the backend has not finished its initialisation ([isReady] is
    false, as the constructor leaves it), every call of [process] returns
    the array it was given and changes nothing: not the processor, not the
    page, not an array, whatever the arrays hold (an empty array included).
    This holds for any number of calls in a row. *)
Theorem process_before_ready {browser : Browser} (calls : list (Tick * loc))
    (self : Processor) (page : Page) (arrays : Arrays) :
  isReady self = false ->
  processAll calls self page arrays
  = (map (fun c => Returned (snd c)) calls, (self, page), arrays).
Proof.
  intros Hnot. induction calls as [|[t buffers] rest IH]; [reflexivity|].
  cbn [processAll]. unfold process, enter. rewrite Hnot. cbn [negb].
  rewrite IH. reflexivity.
Qed.

Lemma process_before_ready_witness :
  isReady (fst (fresh_processor 1)) = false /\
  processAll (browser := sampleBrowser) [(quiet None, 5%positive); (quiet None, 6%positive)]
    (fst (fresh_processor 1)) (snd (fresh_processor 1)) ∅
  = ([Returned 5%positive; Returned 6%positive],
     (fst (fresh_processor 1), snd (fresh_processor 1)), ∅).
Proof.
  split; [reflexivity|].
  apply (process_before_ready (browser := sampleBrowser)
           [(quiet None, 5%positive); (quiet None, 6%positive)]).
  reflexivity.
Defined.

(** C4.  A frame without a width or without a height, and a frame whose
    surface was released (no canvas behind its buffer), is passed through:
    [process] returns the array it was given, and neither the processor (no
    image goes to the backend), nor a canvas (nothing is composited), nor an
    array changes.  The released surface is reported on the console. *)
Theorem process_degenerate_frame {browser : Browser} (t : Tick) (buffers : loc)
    (self : Processor) (page : Page) (arrays : Arrays) (first : VideoFrameBuffer) :
  (arrays !!! buffers) !! 0%nat = Some first ->
  degenerate page first = true ->
  exists page',
    process t buffers self page arrays = (Returned buffers, (self, page'), arrays)
    /\ canvases page' = canvases page.
Proof.
  intros Hfirst Hdeg.
  destruct (enter_degenerate buffers self page arrays first Hfirst Hdeg)
    as (page' & E & Hpage).
  exists page'. unfold process. by rewrite E.
Qed.

Lemma process_degenerate_frame_witness :
  exists page',
    process (browser := sampleBrowser) (quiet (Some sampleMask)) 5%positive
      (fst (ready_processor 1)) (snd (ready_processor 1))
      {[5%positive := [{| asCanvasElement := None |}]]}
    = (Returned 5%positive, (fst (ready_processor 1), page'),
       {[5%positive := [{| asCanvasElement := None |}]]})
    /\ canvases page' = canvases (snd (ready_processor 1)).
Proof.
  apply (process_degenerate_frame (browser := sampleBrowser) (quiet (Some sampleMask)) 5%positive
           (fst (ready_processor 1)) (snd (ready_processor 1))
           {[5%positive := [{| asCanvasElement := None |}]]}
           {| asCanvasElement := None |}).
  - reflexivity.
  - reflexivity.
Defined.

(** ** The gate *)




(** ** The array of frames *)

(** X13.  What every call does to the arrays.  A call that returns, returns
    the array it was given.  A call that is not ready, finds a degenerate
    frame, or fails inside its [try] leaves the arrays as they were.  A call
    whose [try] completes, composited or not, replaces the element at index 0
    by the processor's own buffer.  In every case the elements from index 1
    on and the other arrays are as before, and they are never read: what the
    call does is the same for any array with the same first element. *)
Lemma process_returns_its_array {browser : Browser} (t : Tick) (buffers : loc)
    (self : Processor) (page : Page) (arrays : Arrays) :
  let r := process t buffers self page arrays in
  let old := arrays !!! buffers in
  (forall l, fst (fst r) = Returned l -> l = buffers)
  /\ (isReady self = false -> fst (fst r) = Returned buffers /\ snd r = arrays)
  /\ (forall first, old !! 0%nat = Some first -> degenerate page first = true ->
      fst (fst r) = Returned buffers /\ snd r = arrays)
  /\ (forall ic ds s e s',
      enter buffers self page arrays = Enters ic ds s ->
      tryBlock t ic ds s = (Throw e, s') ->
      fst (fst r) = Returned buffers /\ snd r = arrays)
  /\ (forall ic ds s s',
      enter buffers self page arrays = Enters ic ds s ->
      tryBlock t ic ds s = (Normal tt, s') ->
      fst (fst r) = Returned buffers
      /\ snd r = <[buffers := <[0%nat := canvasVideoFrameBuffer (fst s')]> old]> arrays
      /\ (snd r !!! buffers) !! 0%nat = Some (canvasVideoFrameBuffer (fst s')))
  /\ (forall i, (0 < i)%nat -> (snd r !!! buffers) !! i = old !! i)
  /\ length (snd r !!! buffers) = length old
  /\ (forall other, other <> buffers -> snd r !! other = arrays !! other)
  /\ (forall arrays2,
      (arrays2 !!! buffers) !! 0%nat = old !! 0%nat ->
      fst (process t buffers self page arrays2) = fst r).
Proof.
  cbv zeta. unfold process.
  split; [|split; [|split; [|split; [|split; [|split; [|split; [|split]]]]]]].
  - destruct (enter buffers self page arrays) as [page'|e s|ic ds s];
      [by intros l [= <-]|discriminate|].
    destruct (tryBlock t ic ds s) as [[[]|e|] [self' page']]; cbn;
      first [by intros l [= <-]|discriminate].
  - intros Hr. unfold enter. rewrite Hr. done.
  - intros first Hf Hd.
    destruct (enter_degenerate buffers self page arrays first Hf Hd) as (page' & E & _).
    by rewrite E.
  - intros ic ds s e [self' page'] -> ->. done.
  - intros ic ds s [self' page'] He Ht. rewrite He, Ht. cbn [fst snd].
    split; [done|split; [done|]].
    destruct (enter_has_first _ _ _ _ _ _ _ He) as (first & Hf & _).
    rewrite lookup_total_insert_eq. apply list_lookup_insert_eq.
    by apply lookup_lt_Some in Hf.
  - intros i Hi.
    destruct (enter buffers self page arrays) as [page'|e s|ic ds s]; [done|done|].
    destruct (tryBlock t ic ds s) as [[[]|e|] [self' page']]; cbn [snd]; [|done|done].
    rewrite lookup_total_insert_eq. apply list_lookup_insert_ne. lia.
  - destruct (enter buffers self page arrays) as [page'|e s|ic ds s]; [done|done|].
    destruct (tryBlock t ic ds s) as [[[]|e|] [self' page']]; cbn [snd]; [|done|done].
    rewrite lookup_total_insert_eq. apply length_insert.
  - intros other Hne.
    destruct (enter buffers self page arrays) as [page'|e s|ic ds s]; [done|done|].
    destruct (tryBlock t ic ds s) as [[[]|e|] [self' page']]; cbn [snd]; [|done|done].
    by rewrite lookup_insert_ne.
  - intros arrays2 E. rewrite (enter_reads_first _ _ _ _ _ E).
    destruct (enter buffers self page arrays) as [page'|e s|ic ds s]; [done|done|].
    destruct (tryBlock t ic ds s) as [[[]|e|] [self' page']]; done.
Qed.

(** ** Failures *)

(** C5, as amended.  An exception raised inside the [try] (while gating,
    scaling, sending, awaiting the mask or compositing) is caught: the call
    logs it and returns the array it was given, with every array as it was.
    Whatever the platform and the backend do during the call (a rejected
    [send] included), the call itself throws in two cases only, both before
    the [try]: the array has no first element, or the target canvas was
    destroyed and the frame has another size than the last one. *)
Theorem failures_in_try_absorbed {browser : Browser} (t : Tick) (buffers : loc)
    (self : Processor) (page : Page) (arrays : Arrays) :
  let r := process t buffers self page arrays in
  (forall ic ds s e s',
      enter buffers self page arrays = Enters ic ds s ->
      tryBlock t ic ds s = (Throw e, s') ->
      r = (Returned buffers,
           (fst s', logged "INFO SegmentationFilter::process failed" (snd s')),
           arrays))
  /\ ((exists e, fst (fst r) = Thrown e) <->
      isReady self = true
      /\ ((arrays !!! buffers) !! 0%nat = None
          \/ exists first ic,
               (arrays !!! buffers) !! 0%nat = Some first
               /\ asCanvasElement first = Some ic
               /\ degenerate page first = false
               /\ targetCanvas self = None
               /\ (sourceWidth self <> width (image (canvases page !!! ic))
                   \/ sourceHeight self <> height (image (canvases page !!! ic))))).
Proof.
  cbv zeta. split.
  - intros ic ds s e [self' page'] He Ht. unfold process. by rewrite He, Ht.
  - unfold process, enter, degenerate.
    destruct (isReady self); cbn [negb]; [|split; [by intros [e [=]]|by intros [[=] _]]].
    destruct ((arrays !!! buffers) !! 0%nat) as [first|];
      [|split; [intros _; split; [done|by left]|intros _; eauto]].
    destruct (asCanvasElement first) as [ic|] eqn:Ec.
    2:{ split; [by intros [e [=]]|]. intros [_ [[=]|(f & c & [= <-] & E & _)]].
        congruence. }
    destruct (_ || _) eqn:Ed.
    { split; [by intros [e [=]]|]. intros [_ [[=]|(f & c & [= <-] & E & Hd & _)]].
      rewrite Ec in E, Hd. injection E as <-. congruence. }
    destruct (targetCanvas self) as [target|] eqn:Et.
    + rewrite (resize_eq _ _ _ _ _ Et).
      split.
      * destruct (tryBlock _ _ _ _) as [[[]|e|] [self' page']]; by intros [e' [=]].
      * intros [_ [[=]|(f & c & _ & _ & _ & [=] & _)]].
    + rewrite (resize_destroyed _ _ _ _ Et).
      destruct (negb (sourceWidth self =? _) || negb (sourceHeight self =? _)) eqn:Es.
      * split; [|intros _; eauto]. intros _. split; [done|right].
        exists first, ic. repeat split; try done; [by rewrite Ec|].
        apply orb_true_iff in Es as [Es|Es]; apply negb_true_iff, Z.eqb_neq in Es; auto.
      * split.
        { destruct (tryBlock _ _ _ _) as [[[]|e|] [self' page']]; by intros [e' [=]]. }
        intros [_ [[=]|(f & c & [= <-] & E & _ & _ & Hs)]].
        rewrite Ec in E. injection E as <-.
        apply orb_false_iff in Es as [E1 E2].
        apply negb_false_iff, Z.eqb_eq in E1. apply negb_false_iff, Z.eqb_eq in E2.
        destruct Hs; congruence.
Qed.

(** C5 as it is stated fails for a ready processor and an empty array: the
    call throws on [buffers[0].asCanvasElement()], before its [try]. *)
Lemma empty_array_counterexample :
  fst (fst (process (browser := sampleBrowser) (quiet None) 5%positive
              (fst (ready_processor 1)) (snd (ready_processor 1))
              {[5%positive := []]}))
  = Thrown (TypeError "buffers[0] is undefined").
Proof. vm_compute. reflexivity. Qed.

(** An awaited mask that rejects is caught, and the frame comes back as it
    went in. *)
Example rejected_await_is_absorbed :
  let t := {| context2d := true; sendRejects := true;
              delivery := Rejects (Rejection "no result") |} in
  let s := supply sampleFrame (snd (ready_processor 1)) ∅ in
  let r := process (browser := sampleBrowser) t (fst (fst s))
             (fst (ready_processor 1)) (snd (fst s)) (snd s) in
  fst (fst r) = Returned 1%positive
  /\ snd r = snd s
  /\ console (snd (snd (fst r)))
     = ["ERROR SelfieSegmentationProcessor::selfieSegmentation";
        "INFO SegmentationFilter::process failed"]%string.
Proof. vm_compute. repeat split; reflexivity. Qed.

(** After [destroy()], a frame of the size of the last one fails inside the
    [try] (there is no backend to send to) and is passed through; a frame of
    another size fails at the resize, before the [try], and the call throws. *)
Example process_after_destroy :
  let s1 := supply sampleFrame (snd (ready_processor 1)) ∅ in
  let r1 := process (browser := sampleBrowser) (quiet (Some sampleMask)) (fst (fst s1))
              (fst (ready_processor 1)) (snd (fst s1)) (snd s1) in
  let gone := destroy (fst (snd (fst r1))) in
  let s2 := supply sampleFrame (snd (snd (fst r1))) (snd r1) in
  let r2 := process (browser := sampleBrowser) (quiet (Some sampleMask)) (fst (fst s2))
              gone (snd (fst s2)) (snd s2) in
  let s3 := supply (gradient 2 2 255) (snd (snd (fst r1))) (snd r1) in
  let r3 := process (browser := sampleBrowser) (quiet (Some sampleMask)) (fst (fst s3))
              gone (snd (fst s3)) (snd s3) in
  fst (fst r1) = Returned 1%positive
  /\ fst (fst r2) = Returned 2%positive
  /\ snd r2 = snd s2
  /\ fst (fst r3) = Thrown (TypeError "this.targetCanvas is undefined").
Proof. vm_compute. repeat split; reflexivity. Qed.

(** ** Scaling *)

(** C7, as amended.  A ready, live processor takes a frame of [w] by [h]
    pixels to the inference (the gate is open and the platform hands out
    contexts).  If [scaleFactor] equals 1, the image sent is the input canvas
    itself.  Otherwise it is a canvas no reference named before, of
    [w * scaleFactor] by [h * scaleFactor] pixels as the attribute setter of a
    canvas truncates them, with nothing that keeps either from being 0.  The
    input canvas, when it is not the processor's own output, is left as it
    was; the target canvas has [w] by [h] pixels after the call, and is what
    the first element of the array wraps when the mask is delivered. *)
Theorem frame_sent_to_inference {browser : Browser} (t : Tick) (buffers : loc)
    (self : Processor) (page : Page) (arrays : Arrays) (first : VideoFrameBuffer)
    (ic target : loc) (backend : SelfieSegmentation) :
  Alive self page target ->
  isReady self = true ->
  (arrays !!! buffers) !! 0%nat = Some first ->
  asCanvasElement first = Some ic ->
  degenerate page first = false ->
  selfieSegmentation self = Some backend ->
  shouldRunInference self = true ->
  context2d t = true ->
  let w := width (image (canvases page !!! ic)) in
  let h := height (image (canvases page !!! ic)) in
  let f := scaleFactor self in
  let r := process t buffers self page arrays in
  let self' := fst (snd (fst r)) in
  let page' := snd (snd (fst r)) in
  (exists handed backend',
      selfieSegmentation self' = Some backend'
      /\ sent backend' = sent backend ++ [handed]
      /\ (PrimFloat.eqb f 1 = true -> handed = ic)
      /\ (PrimFloat.eqb f 1 = false ->
          canvases page !! handed = None
          /\ width (image (canvases page' !!! handed)) = dimension 300 (Number.of_Z w * f)
          /\ height (image (canvases page' !!! handed)) = dimension 150 (Number.of_Z h * f)))
  /\ (ic <> target -> canvases page' !! ic = canvases page !! ic)
  /\ width (image (canvases page' !!! target)) = w
  /\ height (image (canvases page' !!! target)) = h
  /\ (forall mask, delivery t = Delivers mask ->
      fst (fst r) = Returned buffers
      /\ (snd r !!! buffers) !! 0%nat = Some {| asCanvasElement := Some target |}).
Proof.
  intros HA Hr Hf Hc Hd Hb Hgate Hctx. cbv zeta.
  pose proof (alive_target _ _ _ HA) as Ht.
  unfold process. rewrite (enter_frame _ _ _ _ _ _ _ Hr Hf Hc Hd Ht).
  set (w := width (image (canvases page !!! ic))).
  set (h := height (image (canvases page !!! ic))).
  assert (Hw : w <> 0).
  { unfold degenerate in Hd. rewrite Hc in Hd. apply orb_false_iff in Hd as [Hd _].
    by apply Z.eqb_neq in Hd. }
  pose proof (lookup_sized page ic Hw) as Hic.
  destruct (entered_alive w h self page target Hw HA)
    as (HA1 & Hw1 & Hh1 & Hsame & Hset & Hrc & Hseg & _).
  destruct (entered w h self page target) as [p1 page1] eqn:He. cbn [fst snd] in *.
  assert (Hf1 : scaleFactor p1 = scaleFactor self /\ reduceFactor p1 = reduceFactor self
                /\ canvasVideoFrameBuffer p1 = canvasVideoFrameBuffer self).
  { unfold settings in Hset. cbn in Hset. injection Hset as _ _ ? _ _ _ _ _ ? ? _. done. }
  destruct Hf1 as (Hsf & Hrf & Hbuf).
  (* the frame as the entered page holds it *)
  assert (Hic1 : is_Some (canvases page1 !! ic)
                 /\ width (image (canvases page1 !!! ic)) = w
                 /\ height (image (canvases page1 !!! ic)) = h).
  { destruct (decide (ic = target)) as [->|Hne].
    - split; [apply HA1|done].
    - rewrite !(lookup_total_alt (canvases page1)), Hsame by done.
      rewrite <- !lookup_total_alt. done. }
  destruct Hic1 as (Hic1 & Hwi & Hhi).
  destruct (tryBlock_sends t ic (negb (PrimFloat.eqb (scaleFactor self) 1)) p1 page1
              target backend HA1 ltac:(congruence)
              ltac:(unfold shouldRunInference in *; congruence) (fun _ => Hctx) Hic1)
    as (handed & r & p' & page' & Htry & Hb' & Hhanded & Hothers & Hshape & Hs' & Hdel).
  rewrite Htry.
  assert (Hpage' : forall line,
    (ic <> target -> canvases (logged line page') !! ic = canvases page !! ic)
    /\ width (image (canvases (logged line page') !!! target)) = w
    /\ height (image (canvases (logged line page') !!! target)) = h
    /\ (ic <> target -> canvases page' !! ic = canvases page !! ic)
    /\ width (image (canvases page' !!! target)) = w
    /\ height (image (canvases page' !!! target)) = h).
  { intros line. cbn [canvases logged]. unfold shape in Hshape.
    injection Hshape as -> -> _ _.
    repeat split; try done; intros Hne; rewrite Hothers, Hsame; done. }
  assert (Hsent : exists handed0 backend',
      selfieSegmentation p' = Some backend'
      /\ sent backend' = sent backend ++ [handed0]
      /\ (PrimFloat.eqb (scaleFactor self) 1 = true -> handed0 = ic)
      /\ (PrimFloat.eqb (scaleFactor self) 1 = false ->
          canvases page !! handed0 = None
          /\ width (image (canvases page' !!! handed0))
             = dimension 300 (Number.of_Z w * scaleFactor self)
          /\ height (image (canvases page' !!! handed0))
             = dimension 150 (Number.of_Z h * scaleFactor self))).
  { exists handed, (send handed backend). split; [done|split; [done|]].
    destruct (PrimFloat.eqb (scaleFactor self) 1); cbn [negb] in Hhanded.
    - split; [done|discriminate].
    - split; [discriminate|intros _].
      destruct Hhanded as (Hnone & Hwh & Hhh).
      rewrite Hwi, Hhi, Hsf in *. split; [|done].
      destruct (decide (handed = target)) as [->|Hne].
      + destruct (alive_canvas _ _ _ HA1) as [? E1]. congruence.
      + rewrite <- Hsame by done. done. }
  destruct r as [[]|e|]; destruct (Hpage' "INFO SegmentationFilter::process failed"%string)
    as (? & ? & ? & ? & ? & ?); cbn [fst snd].
  - split; [done|]. split; [done|]. split; [done|]. split; [done|].
    intros mask _. split; [done|].
    rewrite lookup_total_insert_eq.
    rewrite list_lookup_insert_eq by (by apply lookup_lt_Some in Hf).
    unfold settings in Hs'. injection Hs' as _ _ -> _ _ _ _ _ _ _ _.
    rewrite Hbuf. f_equal. apply HA.
  - split; [done|]. split; [done|]. split; [done|]. split; [done|].
    intros mask Hm. by specialize (Hdel mask Hm).
  - split; [done|]. split; [done|]. split; [done|]. split; [done|].
    intros mask Hm. by specialize (Hdel mask Hm).
Qed.


Lemma frame_sent_to_inference_witness :
  let page := snd (fst (supply sampleFrame (snd halved_processor) ∅)) in
  let arrays := snd (supply sampleFrame (snd halved_processor) ∅) in
  let r := process (browser := sampleBrowser) (quiet (Some sampleMask)) 1%positive
             (fst halved_processor) page arrays in
  width (image (canvases (snd (snd (fst r))) !!! 1%positive)) = 4
  /\ height (image (canvases (snd (snd (fst r))) !!! 1%positive)) = 4.
Proof.
  cbv zeta.
  refine (let pf := frame_sent_to_inference (browser := sampleBrowser)
                      (quiet (Some sampleMask)) 1%positive (fst halved_processor)
                      (snd (fst (supply sampleFrame (snd halved_processor) ∅)))
                      (snd (supply sampleFrame (snd halved_processor) ∅))
                      {| asCanvasElement := Some 2%positive |} 2%positive 1%positive
                      {| sent := []; modelSelection := 1; closed := false |}
                      _ _ _ _ _ _ _ _ in
          conj (proj1 (proj2 (proj2 pf))) (proj1 (proj2 (proj2 (proj2 pf))))).
  - split; try reflexivity.
    + discriminate.
    + vm_compute. eauto.
    + left. reflexivity.
    + split; reflexivity.
  - reflexivity.
  - reflexivity.
  - reflexivity.
  - reflexivity.
  - reflexivity.
  - reflexivity.
  - reflexivity.
Defined.

(** C7 as it is stated fails for a frame of 1 by 1 pixel and the factor one
    half: the canvas sent to the inference (the third of the page) has no
    width and no height, where the claim has them clamped to 1. *)
Lemma scaled_to_nothing_counterexample :
  let page := snd (fst (supply (gradient 1 1 255) (snd halved_processor) ∅)) in
  let arrays := snd (supply (gradient 1 1 255) (snd halved_processor) ∅) in
  let r := process (browser := sampleBrowser) (quiet (Some sampleMask)) 1%positive
             (fst halved_processor) page arrays in
  option_map sent (selfieSegmentation (fst (snd (fst r)))) = Some [3%positive]
  /\ width (image (canvases (snd (snd (fst r))) !!! 3%positive)) = 0
  /\ height (image (canvases (snd (snd (fst r))) !!! 3%positive)) = 0.
Proof. vm_compute. repeat split; reflexivity. Qed.

(** A frame of 640 by 480 pixels at the factor one half goes to the inference
    as a canvas of 320 by 240, and comes out at 640 by 480. *)
Example half_of_vga :
  let page := snd (fst (supply (gradient 640 480 255) (snd halved_processor) ∅)) in
  let arrays := snd (supply (gradient 640 480 255) (snd halved_processor) ∅) in
  let r := process (browser := sampleBrowser) (quiet (Some sampleMask)) 1%positive
             (fst halved_processor) page arrays in
  option_map sent (selfieSegmentation (fst (snd (fst r)))) = Some [3%positive]
  /\ shape (canvases (snd (snd (fst r))) !!! 3%positive) = (320, 240, SourceOver, FilterNone)
  /\ (snd r !!! 1%positive) !! 0%nat = Some {| asCanvasElement := Some 1%positive |}
  /\ shape (canvases (snd (snd (fst r))) !!! 1%positive) = (640, 480, SourceOver, FilterNone).
Proof. vm_compute. repeat split; reflexivity. Qed.

(** ** Compositing *)

(** C8.  With a mask that is fully opaque and the blur strength 0, the
    source-in pass followed by the destination-over pass leaves every pixel
    of the target canvas equal to the pixel of the frame. *)
Theorem opaque_mask_keeps_frame {browser : Browser} (ic : loc) (mask : GpuBuffer)
    (p : Processor) (page : Page) (target : loc) :
  ResamplingKeepsAlpha ->
  Framed p page ic target ->
  0 < width mask -> 0 < height mask ->
  uniformAlpha 255 mask ->
  blurAmount p = 0 ->
  exists page',
    compositePasses ic mask (p, page) = (Normal tt, (p, page'))
    /\ forall x y,
         0 <= x < width (image (canvases page !!! ic)) ->
         0 <= y < height (image (canvases page !!! ic)) ->
         bitmap (image (canvases page' !!! target)) x y
         = bitmap (image (canvases page !!! ic)) x y.
Proof.
  intros HR [Ht Hc Hne Hw Hh [Hop Hf]] Hmw Hmh Hu Hb.
  eexists. split; [by apply compositePasses_eq|].
  intros x y Hx Hy. cbn [canvases withCanvases]. rewrite lookup_total_insert_eq.
  rewrite composited_pixel by done. cbv zeta.
  rewrite (drawn_alpha mask _ _ 255 HR Hmw Hmh Hu x y Hx Hy), Hb. cbn.
  by destruct (0 <? alpha _).
Qed.


Lemma opaque_mask_keeps_frame_witness :
  bitmap (image (canvases (snd (snd (compositePasses (browser := sampleBrowser) 2%positive sampleMask
                                       (fst (framed_processor 0), snd (framed_processor 0)))))
                 !!! 1%positive)) 1 2
  = bitmap sampleFrame 1 2.
Proof.
  destruct (opaque_mask_keeps_frame (browser := sampleBrowser) 2%positive sampleMask
              (fst (framed_processor 0)) (snd (framed_processor 0)) 1%positive)
    as (page' & E & Hpx).
  - exact nearest_keeps_alpha.
  - split; try reflexivity; [discriminate|split; reflexivity].
  - reflexivity.
  - reflexivity.
  - intros x y _ _. reflexivity.
  - reflexivity.
  - rewrite E. cbn [snd]. apply (Hpx 1 2); vm_compute; (split; [discriminate|reflexivity]).
Defined.

(** C9.  With a mask that is fully transparent, the two passes leave every
    pixel of the target canvas equal to the pixel of the frame blurred with
    the configured strength when that is above 0, and to the pixel of the
    frame itself, no filter being set, when the strength is 0 (or below). *)
Theorem transparent_mask_blurs_frame {browser : Browser} (ic : loc) (mask : GpuBuffer)
    (p : Processor) (page : Page) (target : loc) :
  ResamplingKeepsAlpha ->
  Framed p page ic target ->
  0 < width mask -> 0 < height mask ->
  uniformAlpha 0 mask ->
  exists page',
    compositePasses ic mask (p, page) = (Normal tt, (p, page'))
    /\ (0 < blurAmount p ->
        forall x y,
          0 <= x < width (image (canvases page !!! ic)) ->
          0 <= y < height (image (canvases page !!! ic)) ->
          bitmap (image (canvases page' !!! target)) x y
          = blur (blurAmount p) (image (canvases page !!! ic)) x y)
    /\ (blurAmount p <= 0 ->
        forall x y,
          0 <= x < width (image (canvases page !!! ic)) ->
          0 <= y < height (image (canvases page !!! ic)) ->
          bitmap (image (canvases page' !!! target)) x y
          = bitmap (image (canvases page !!! ic)) x y).
Proof.
  intros HR [Ht Hc Hne Hw Hh [Hop Hf]] Hmw Hmh Hu.
  eexists. split; [by apply compositePasses_eq|].
  split; intros Hb x y Hx Hy; cbn [canvases withCanvases];
    rewrite lookup_total_insert_eq, composited_pixel by done; cbv zeta;
    rewrite (drawn_alpha mask _ _ 0 HR Hmw Hmh Hu x y Hx Hy); cbn.
  - by apply Z.ltb_lt in Hb as ->.
  - by apply Z.ltb_ge in Hb as ->.
Qed.


Lemma transparent_mask_blurs_frame_witness :
  bitmap (image (canvases (snd (snd (compositePasses (browser := sampleBrowser) 2%positive
                                       (gradient 2 2 0)
                                       (fst (framed_processor 7), snd (framed_processor 7)))))
                 !!! 1%positive)) 1 2
  = pairBlur 7 sampleFrame 1 2.
Proof.
  destruct (transparent_mask_blurs_frame (browser := sampleBrowser) 2%positive (gradient 2 2 0)
              (fst (framed_processor 7)) (snd (framed_processor 7)) 1%positive)
    as (page' & E & Hblur & _).
  - exact nearest_keeps_alpha.
  - split; try reflexivity; [discriminate|split; reflexivity].
  - reflexivity.
  - reflexivity.
  - intros x y _ _. reflexivity.
  - rewrite E. cbn [snd]. apply (Hblur eq_refl 1 2); vm_compute; (split; [discriminate|reflexivity]).
Defined.

(** ** Teardown *)



(** ** A frame without a mask *)

(** C2 fails on the code.  A processor scaled to one half fails its first
    call while scaling (the platform hands out no 2D context): the failure is
    caught with the counter already reset to 0.  The second call is ready and
    its frame has a size; it skips the inference (0 is not the period), finds
    no cached mask, and draws nothing: the target canvas is as the resize of
    the first call left it, transparent.  Yet the first element of its array
    is no longer the input buffer (of canvas 4) but the processor's own (of
    canvas 1). *)
Lemma unmasked_frame_is_replaced :
  let broken := {| context2d := false; sendRejects := false; delivery := Never |} in
  let s1 := supply sampleFrame (snd halved_processor) ∅ in
  let r1 := process (browser := sampleBrowser) broken (fst (fst s1))
              (fst halved_processor) (snd (fst s1)) (snd s1) in
  let self := fst (snd (fst r1)) in
  let s2 := supply sampleFrame (snd (snd (fst r1))) (snd r1) in
  let r2 := process (browser := sampleBrowser) (quiet (Some sampleMask)) (fst (fst s2))
              self (snd (fst s2)) (snd s2) in
  (isReady self = true
   /\ shouldRunInference self = false
   /\ DeferredObservable.value (mask_ self) = None
   /\ (snd s2 !!! 2%positive) !! 0%nat = Some {| asCanvasElement := Some 4%positive |}
   /\ image (canvases (snd (fst s2)) !!! 4%positive) = sampleFrame)
  /\ fst (fst r2) = Returned 2%positive
  /\ submitted (fst (snd (fst r2))) = 0%nat
  /\ DeferredObservable.value (mask_ (fst (snd (fst r2)))) = None
  /\ image (canvases (snd (snd (fst r2))) !!! 1%positive) = blank 4 4
  /\ (snd r2 !!! 2%positive) !! 0%nat = Some {| asCanvasElement := Some 1%positive |}.
Proof. vm_compute. repeat split; reflexivity. Qed.

(** The same on the first call of a processor of scale 1, when the backend
    delivers a result without a mask. *)
Example undefined_mask_is_replaced :
  let page := snd (fst (supply sampleFrame (snd (ready_processor 1)) ∅)) in
  let arrays := snd (supply sampleFrame (snd (ready_processor 1)) ∅) in
  let r := process (browser := sampleBrowser) (quiet None) 1%positive
             (fst (ready_processor 1)) page arrays in
  (arrays !!! 1%positive) !! 0%nat = Some {| asCanvasElement := Some 2%positive |}
  /\ fst (fst r) = Returned 1%positive
  /\ (snd r !!! 1%positive) !! 0%nat = Some {| asCanvasElement := Some 1%positive |}
  /\ image (canvases (snd (snd (fst r))) !!! 1%positive) = blank 4 4.
Proof. vm_compute. repeat split; reflexivity. Qed.

(** C10 fails on the code, by the same path.  The call of [process] below is
    ready, its frame has a size, and it composites nothing: it holds no mask
    and runs no inference.  It is not a composited tick, and still the array
    it returns (the one it was given, whose second element is untouched) has
    the processor's own buffer at index 0. *)
Lemma uncomposited_tick_changes_array :
  let broken := {| context2d := false; sendRejects := false; delivery := Never |} in
  let s1 := supply sampleFrame (snd halved_processor) ∅ in
  let r1 := process (browser := sampleBrowser) broken (fst (fst s1))
              (fst halved_processor) (snd (fst s1)) (snd s1) in
  let self := fst (snd (fst r1)) in
  let page := snd (snd (fst r1)) in
  let input := {| asCanvasElement := Some 2%positive |} in
  let other := {| asCanvasElement := Some 3%positive |} in
  let r2 := process (browser := sampleBrowser) (quiet (Some sampleMask)) 9%positive
              self page {[9%positive := [input; other]]} in
  (shouldRunInference self = false /\ DeferredObservable.value (mask_ self) = None)
  /\ fst (fst r2) = Returned 9%positive
  /\ snd r2 = {[9%positive := [canvasVideoFrameBuffer self; other]]}
  /\ canvasVideoFrameBuffer self = {| asCanvasElement := Some 1%positive |}
  /\ canvases (snd (snd (fst r2))) = canvases page.
Proof. vm_compute. repeat split; reflexivity. Qed.

(** ** The ways through a call *)

(** Where a call stands when it leaves lines 82 to 107. *)
Lemma enter_state buffers self page arrays :
  match enter buffers self page arrays with
  | PassThrough page' => canvases page' = canvases page
  | Breaks e s =>
      (fst s = self \/ exists w h, fst s = set_source w h self) /\ snd s = page
  | Enters ic ds s =>
      ds = negb (PrimFloat.eqb (scaleFactor self) 1)
      /\ (fst s = self \/ exists w h, fst s = set_source w h self)
      /\ (targetCanvas self = None -> snd s = page)
  end.
Proof.
  unfold enter. destruct (isReady self); cbn [negb]; [|done].
  destruct (_ !! 0%nat) as [first|]; [|by split; [left|]].
  destruct (asCanvasElement first) as [ic|]; [|done].
  destruct (_ || _); [done|].
  unfold resize.
  destruct (negb _ || negb _).
  - cbn [targetCanvas set_source]. destruct (targetCanvas self) as [target|].
    + split; [done|]. split; [right; eauto|done].
    + split; [right; eauto|done].
  - split; [done|]. split; [by left|done].
Qed.

(** The fields the resize leaves alone. *)
Lemma entered_fields self (s : Processor * Page) :
  fst s = self \/ (exists w h, fst s = set_source w h self) ->
  runningCount (fst s) = runningCount self
  /\ reduceFactor (fst s) = reduceFactor self
  /\ frames (fst s) = frames self
  /\ selfieSegmentation (fst s) = selfieSegmentation self
  /\ mask_ (fst s) = mask_ self
  /\ scaleFactor (fst s) = scaleFactor self
  /\ targetCanvas (fst s) = targetCanvas self.
Proof. intros [->|(w & h & ->)]; repeat split. Qed.

Section Calls.
Context {browser : Browser}.

(** The compositor and the label write to the canvas of the context. *)
Lemma compositePasses_writes ic mask p page target :
  targetCanvas p = Some target ->
  exists c,
    compositePasses ic mask (p, page)
    = (Normal tt, (p, withCanvases (<[canvasCtx p := c]> (canvases page)) page)).
Proof.
  intros Ht. unfold compositePasses. step. rewrite Ht. do 8 step.
  destruct (0 <? blurAmount p); repeat step; eexists; reflexivity.
Qed.

Lemma drawFps_writes p page :
  exists c,
    drawFps (p, page)
    = (Normal tt, (p, withCanvases (<[canvasCtx p := c]> (canvases page)) page)).
Proof. unfold drawFps. repeat step. eexists. reflexivity. Qed.

(** The rest of the [try] never waits, counts the frame, and writes nothing
    to the console. *)
Lemma finish_outcome ic mask q page :
  exists r page',
    finish ic mask (q, page) = (r, (countFrame q, page'))
    /\ r <> Suspend
    /\ (mask = None -> r = Normal tt /\ page' = page)
    /\ (targetCanvas q = None -> canvases page' = canvases page)
    /\ (forall target, targetCanvas q = Some target -> r = Normal tt)
    /\ console page' = console page.
Proof.
  unfold finish. step. destruct mask as [mask|].
  2:{ exists (Normal tt), page. repeat split; done. }
  destruct (targetCanvas q) as [target|] eqn:Et.
  - destruct (compositePasses_writes ic mask (countFrame q) page target Et) as [c1 E1].
    rewrite (bind_normal _ _ _ _ _ E1).
    destruct (drawFps_writes (countFrame q)
                (withCanvases (<[canvasCtx (countFrame q) := c1]> (canvases page)) page))
      as [c2 E2].
    eexists (Normal tt), _. split; [exact E2|].
    repeat split; done.
  - exists (Throw (TypeError "targetCanvas is undefined")), page.
    split; [apply bind_thrown; by apply compositePasses_destroyed|].
    repeat split; done.
Qed.

(** Lines 112 to 139 from any state: how they end, and what they leave. *)
Lemma runInference_outcome t ic ds p page :
  exists r p' page',
    runInference t ic ds (p, page) = (r, (p', page'))
    /\ runningCount p' = 0
    /\ settings p' = settings p
    /\ (forall l, is_Some (canvases page !! l) -> canvases page' !! l = canvases page !! l)
    /\ (ds = false -> canvases page' = canvases page)
    /\ console page'
       = console page
         ++ (if awaits t ds p && sendRejects t
             then ["ERROR SelfieSegmentationProcessor::selfieSegmentation"%string]
             else [])
    /\ (if awaits t ds p then
          submitted p' = S (submitted p)
          /\ match delivery t with
             | Delivers mask => r = Normal mask /\ frames p' = frames p + 1
             | Rejects e => r = Throw e /\ frames p' = frames p
             | Never => r = Suspend /\ frames p' = frames p
             end
        else (exists e, r = Throw e)
             /\ frames p' = frames p
             /\ selfieSegmentation p' = selfieSegmentation p).
Proof.
  assert (Hfresh : forall (c : Canvas) l, is_Some (canvases page !! l) ->
            <[fresh (dom (canvases page)) := c]> (canvases page) !! l = canvases page !! l).
  { intros c l Hl. rewrite lookup_insert_ne; [done|].
    intros <-. apply elem_of_dom in Hl. by apply is_fresh in Hl. }
  unfold awaits.
  destruct (selfieSegmentation p) as [backend|] eqn:Hb.
  - destruct (negb ds || context2d t) eqn:Hc; cbn [andb].
    + assert (Hctx : ds = true -> context2d t = true).
      { intros ->. exact Hc. }
      destruct (runInference_run t ic ds p page backend Hb Hctx)
        as (handed & page1 & Hscaled & Hrun).
      cbv zeta in Hrun.
      assert (Hpage1 : (forall l, is_Some (canvases page !! l) ->
                          canvases page1 !! l = canvases page !! l)
                       /\ (ds = false -> canvases page1 = canvases page)
                       /\ console page1 = console page).
      { destruct ds.
        - destruct Hscaled as (-> & c & -> & _). split; [|split; [discriminate|done]].
          intros l Hl. by apply Hfresh.
        - destruct Hscaled as (_ & ->). done. }
      destruct Hpage1 as (Hsame & Hnone & Hcons).
      assert (Hlog : forall b : bool,
                canvases (if b
                          then logged "ERROR SelfieSegmentationProcessor::selfieSegmentation" page1
                          else page1) = canvases page1) by (by intros []).
      destruct (delivery t) as [mask|e|]; rewrite Hrun; eexists _, _, _;
        (split; [reflexivity|]);
        (split; [cbn; unfold Number.remainder; apply Z.rem_1_r|]);
        (split; [reflexivity|]);
        (split; [intros l Hl; rewrite Hlog; by apply Hsame|]);
        (split; [intros Hds; rewrite Hlog; by apply Hnone|]);
        (split; [destruct (sendRejects t); cbn; rewrite Hcons; by rewrite ?app_nil_r|]);
        (split; [unfold submitted; cbn; rewrite Hb, length_app; cbn; lia|]);
        split; reflexivity.
    + apply orb_false_iff in Hc as [Hds Hc]. apply negb_false_iff in Hds. subst ds.
      unfold runInference. step.
      destruct (scaleFrame_run t ic (resetCount p) page) as (c & Hrun & _).
      rewrite Hc in Hrun. rewrite (bind_thrown _ _ _ _ _ Hrun).
      eexists _, _, _. split; [reflexivity|].
      split; [cbn; unfold Number.remainder; apply Z.rem_1_r|].
      split; [reflexivity|].
      split; [intros l Hl; by apply Hfresh|].
      split; [discriminate|].
      split; [cbn; by rewrite app_nil_r|].
      split; [eauto|]. split; [reflexivity|exact Hb].
  - rewrite andb_false_r.
    unfold runInference. step.
    assert (Hsend : forall x page1,
      (sendImage t x ≫= fun _ => mask ← awaitMask t;
         assign (fun p0 => set_frames (frames p0 + 1) p0);; mret mask)
        (set_mask_ (DeferredObservable.whenNext (mask_ (resetCount p))) (resetCount p), page1)
      = (Throw (TypeError "this.selfieSegmentation is undefined"),
         (set_mask_ (DeferredObservable.whenNext (mask_ (resetCount p))) (resetCount p), page1))).
    { intros x page1. unfold sendImage. do 2 step.
      cbn [selfieSegmentation set_mask_ resetCount set_runningCount]. by rewrite Hb. }
    destruct ds.
    + destruct (scaleFrame_run t ic (resetCount p) page) as (c & Hrun & _).
      destruct (context2d t).
      * rewrite (bind_normal _ _ _ _ _ Hrun). step. rewrite Hsend.
        eexists _, _, _. split; [reflexivity|].
        split; [cbn; unfold Number.remainder; apply Z.rem_1_r|].
        split; [reflexivity|].
        split; [intros l Hl; by apply Hfresh|].
        split; [discriminate|].
        split; [cbn; by rewrite app_nil_r|].
        split; [eauto|]. split; [reflexivity|]. cbn. done.
      * rewrite (bind_thrown _ _ _ _ _ Hrun).
        eexists _, _, _. split; [reflexivity|].
        split; [cbn; unfold Number.remainder; apply Z.rem_1_r|].
        split; [reflexivity|].
        split; [intros l Hl; by apply Hfresh|].
        split; [discriminate|].
        split; [cbn; by rewrite app_nil_r|].
        split; [eauto|]. split; [reflexivity|exact Hb].
    + step. step. rewrite Hsend.
      eexists _, _, _. split; [reflexivity|].
      split; [cbn; unfold Number.remainder; apply Z.rem_1_r|].
      split; [reflexivity|].
      split; [done|]. split; [done|].
      split; [cbn; by rewrite app_nil_r|].
      split; [eauto|]. split; [reflexivity|]. cbn. done.
Qed.

(** The body of the [try] from any state. *)
Lemma tryBlock_outcome t ic ds p page :
  exists r p' page',
    tryBlock t ic ds (p, page) = (r, (p', page'))
    /\ settings p' = settings p
    /\ (targetCanvas p = None ->
        forall l, is_Some (canvases page !! l) -> canvases page' !! l = canvases page !! l)
    /\ (if shouldRunInference p then
          if awaits t ds p then
            submitted p' = S (submitted p)
            /\ match delivery t with
               | Delivers mask =>
                   r <> Suspend /\ runningCount p' = 1 /\ frames p' = frames p + 1
               | Rejects e => r = Throw e /\ runningCount p' = 0 /\ frames p' = frames p
               | Never => r = Suspend /\ runningCount p' = 0 /\ frames p' = frames p
               end
          else (exists e, r = Throw e) /\ runningCount p' = 0 /\ frames p' = frames p
               /\ selfieSegmentation p' = selfieSegmentation p
        else r <> Suspend /\ runningCount p' = runningCount p + 1
             /\ frames p' = frames p
             /\ selfieSegmentation p' = selfieSegmentation p
             /\ mask_ p' = mask_ p).
Proof.
  rewrite tryBlock_finish.
  destruct (shouldRunInference p) eqn:Hgate.
  - destruct (runInference_outcome t ic ds p page)
      as (r1 & p1 & page1 & Hrun & Hc1 & Hs1 & Hsame & _ & _ & Hout).
    destruct (awaits t ds p).
    + destruct Hout as [Hsub Hout].
      destruct (delivery t) as [mask|e|]; destruct Hout as [-> Hf].
      * rewrite (bind_normal _ _ _ _ _ Hrun).
        destruct (finish_outcome ic mask p1 page1) as (r & page' & E & Hr & _ & Hnone & _).
        exists r, (countFrame p1), page'. split; [done|].
        split; [done|]. split.
        { intros Ht l Hl. rewrite Hnone; [by apply Hsame|].
          unfold settings in Hs1. injection Hs1 as -> _ _ _ _ _ _ _ _ _ _. done. }
        split; [done|]. split; [done|]. cbn. split; [lia|done].
      * rewrite (bind_thrown _ _ _ _ _ Hrun). exists (Throw e), p1, page1.
        repeat split; done.
      * rewrite (bind_suspended _ _ _ _ Hrun). exists Suspend, p1, page1.
        repeat split; done.
    + destruct Hout as ([e ->] & Hf & Hb).
      rewrite (bind_thrown _ _ _ _ _ Hrun). exists (Throw e), p1, page1.
      repeat split; try done. eauto.
  - step.
    destruct (finish_outcome ic (DeferredObservable.value (mask_ p)) p page)
      as (r & page' & E & Hr & _ & Hnone & _).
    exists r, (countFrame p), page'. split; [done|]. split; [done|].
    split; [intros Ht l _; by rewrite Hnone|].
    repeat split; done.
Qed.

(** What a call of [process] makes of the counters, by the way it takes. *)
Lemma process_outcome t buffers self page arrays :
  let r := process t buffers self page arrays in
  let self' := fst (snd (fst r)) in
  reduceFactor self' = reduceFactor self
  /\ match enter buffers self page arrays with
     | Enters ic ds s =>
         if shouldRunInference self then
           if awaits t ds self then
             submitted self' = S (submitted self)
             /\ match delivery t with
                | Delivers mask =>
                    fst (fst r) = Returned buffers
                    /\ runningCount self' = 1 /\ frames self' = frames self + 1
                | Rejects e =>
                    fst (fst r) = Returned buffers /\ snd r = arrays
                    /\ runningCount self' = 0 /\ frames self' = frames self
                | Never =>
                    fst (fst r) = Pending /\ snd r = arrays
                    /\ runningCount self' = 0 /\ frames self' = frames self
                end
           else fst (fst r) = Returned buffers /\ snd r = arrays
                /\ runningCount self' = 0 /\ frames self' = frames self
                /\ submitted self' = submitted self
         else fst (fst r) = Returned buffers
              /\ runningCount self' = runningCount self + 1
              /\ frames self' = frames self
              /\ submitted self' = submitted self
     | _ =>
         fst (fst r) <> Pending /\ snd r = arrays
         /\ runningCount self' = runningCount self
         /\ frames self' = frames self
         /\ submitted self' = submitted self
     end.
Proof.
  cbv zeta. unfold process.
  pose proof (enter_state buffers self page arrays) as He.
  destruct (enter buffers self page arrays) as [page'|e s|ic ds [p1 page1]]; cbn [fst snd].
  - repeat split; done.
  - destruct He as [Hs _]. destruct (entered_fields self s Hs) as (?&?&?&Hb&_).
    unfold submitted. rewrite Hb. repeat split; done.
  - destruct He as (_ & Hs & _).
    destruct (entered_fields self (p1, page1) Hs) as (Hc & Hn & Hf & Hb & _).
    cbn [fst] in *.
    destruct (tryBlock_outcome t ic ds p1 page1) as (r & p' & page' & -> & Hset & _ & Hout).
    assert (Hn' : reduceFactor p' = reduceFactor self).
    { unfold settings in Hset. injection Hset as _ _ _ _ _ _ _ _ -> _ _. done. }
    assert (Hgate : shouldRunInference p1 = shouldRunInference self).
    { unfold shouldRunInference. congruence. }
    assert (Haw : awaits t ds p1 = awaits t ds self).
    { unfold awaits. by rewrite Hb. }
    assert (Hsub : submitted p1 = submitted self).
    { unfold submitted. by rewrite Hb. }
    rewrite Hgate, Haw in Hout.
    destruct (shouldRunInference self).
    + destruct (awaits t ds self).
      * destruct Hout as [Hs' Hout]. rewrite Hsub in Hs'.
        destruct (delivery t) as [mask|e|].
        -- destruct Hout as (Hr & Hc' & Hf').
           destruct r as [[]|e|]; [| |done]; cbn [fst snd];
             (split; [first [done|exact Hn']|]); repeat split; try done; congruence.
        -- destruct Hout as (-> & Hc' & Hf'). cbn [fst snd].
           repeat split; try done; congruence.
        -- destruct Hout as (-> & Hc' & Hf'). cbn [fst snd].
           repeat split; try done; congruence.
      * destruct Hout as ([e ->] & Hc' & Hf' & Hb'). cbn [fst snd].
        repeat split; try done; try congruence.
        unfold submitted. by rewrite Hb', Hb.
    + destruct Hout as (Hr & Hc' & Hf' & Hb' & _).
      destruct r as [[]|e|]; [| |done]; cbn [fst snd];
        (split; [first [done|exact Hn']|]); repeat split; try done; try congruence;
        unfold submitted; by rewrite Hb', Hb.
Qed.

(** What every call keeps, any run of calls keeps. *)
Lemma processAll_invariant (P : Processor -> Page -> Prop) :
  (forall t buffers self page arrays, P self page ->
     P (fst (snd (fst (process t buffers self page arrays))))
       (snd (snd (fst (process t buffers self page arrays))))) ->
  forall calls self page arrays, P self page ->
    P (fst (snd (fst (processAll calls self page arrays))))
      (snd (snd (fst (processAll calls self page arrays)))).
Proof.
  intros Hstep calls. induction calls as [|[t buffers] rest IH]; intros self page arrays HP.
  - exact HP.
  - cbn [processAll]. specialize (Hstep t buffers self page arrays HP).
    destruct (process t buffers self page arrays) as [[o [self' page']] arrays'].
    cbn [fst snd] in Hstep. specialize (IH self' page' arrays' Hstep).
    destruct (processAll rest self' page' arrays') as [[os s] arrays'']. exact IH.
Qed.

(** A live processor writes to no canvas but its target. *)
Lemma process_others t buffers self page arrays target :
  Alive self page target ->
  forall l, is_Some (canvases page !! l) -> l <> target ->
    canvases (snd (snd (fst (process t buffers self page arrays)))) !! l
    = canvases page !! l.
Proof.
  intros HA l Hl Hne. pose proof (alive_target _ _ _ HA) as Ht. unfold process.
  pose proof (enter_state buffers self page arrays) as Hs.
  destruct (enter buffers self page arrays) as [page'|e s|ic ds s] eqn:He; cbn [fst snd].
  - by rewrite Hs.
  - destruct Hs as [_ ->]. done.
  - clear Hs.
    destruct (enter_has_first _ _ _ _ _ _ _ He) as (first & Hf & Hc & Hd).
    assert (Hr : isReady self = true).
    { unfold enter in He. by destruct (isReady self). }
    rewrite (enter_frame _ _ _ _ _ _ _ Hr Hf Hc Hd Ht) in He. injection He as _ <-.
    assert (Hw : width (image (canvases page !!! ic)) <> 0).
    { unfold degenerate in Hd. rewrite Hc in Hd. apply orb_false_iff in Hd as [Hd _].
      by apply Z.eqb_neq in Hd. }
    destruct (entered_alive _ (height (image (canvases page !!! ic))) _ _ _ Hw HA)
      as (HA1 & _ & _ & Hsame & _).
    destruct (entered _ _ _ _ _) as [p1 page1]. cbn [fst snd] in *.
    pose proof (respects_tryBlock t ic ds (p1, page1)) as HS.
    assert (Hgoal : canvases (snd (snd (tryBlock t ic ds (p1, page1)))) !! l
                    = canvases page !! l).
    { rewrite (step_others _ _ HS); cbn [fst snd].
      - by apply Hsame.
      - by rewrite Hsame.
      - by rewrite (alive_ctx _ _ _ HA1). }
    destruct (tryBlock t ic ds (p1, page1)) as [[[]|e|] [p' page']]; exact Hgoal.
Qed.

Lemma process_configuration t buffers self page arrays :
  configuration (fst (snd (fst (process t buffers self page arrays))))
  = configuration self.
Proof.
  unfold process.
  pose proof (enter_state buffers self page arrays) as Hs.
  destruct (enter buffers self page arrays) as [page'|e s|ic ds s]; cbn [fst snd].
  - done.
  - by destruct Hs as [[->|(w & h & ->)] _].
  - destruct Hs as (_ & Hs & _).
    assert (Hc : configuration (fst s) = configuration self).
    { by destruct Hs as [->|(w & h & ->)]. }
    pose proof (step_settings _ _ (respects_tryBlock t ic ds s)) as HS.
    assert (Hgoal : configuration (fst (snd (tryBlock t ic ds s))) = configuration self).
    { rewrite <- Hc. unfold settings in HS. unfold configuration. congruence. }
    destruct (tryBlock t ic ds s) as [[[]|e|] [p' page']]; exact Hgoal.
Qed.

(** The rest of the [try] makes no canvas. *)
Lemma finish_dom ic mask q page :
  is_Some (canvases page !! canvasCtx q) ->
  dom (canvases (snd (snd (finish ic mask (q, page))))) = dom (canvases page).
Proof.
  intros Hc. unfold finish. step. destruct mask as [mask|]; [|done].
  destruct (targetCanvas q) as [target|] eqn:Et.
  - destruct (compositePasses_writes ic mask (countFrame q) page target Et) as [c1 E1].
    rewrite (bind_normal _ _ _ _ _ E1).
    destruct (drawFps_writes (countFrame q)
                (withCanvases (<[canvasCtx (countFrame q) := c1]> (canvases page)) page))
      as [c2 ->].
    cbn [fst snd canvases withCanvases countFrame canvasCtx set_runningCount].
    rewrite insert_insert_eq. by apply dom_insert_lookup_L.
  - by rewrite (bind_thrown _ _ _ _ _
                  (compositePasses_destroyed ic mask (countFrame q) page Et)).
Qed.

Lemma tryBlock_dom t ic ds p page :
  is_Some (canvases page !! canvasCtx p) ->
  ds = false \/ shouldRunInference p = false ->
  dom (canvases (snd (snd (tryBlock t ic ds (p, page))))) = dom (canvases page).
Proof.
  intros Hc Hor. rewrite tryBlock_finish.
  destruct (shouldRunInference p) eqn:Hgate.
  - destruct Hor as [->|[=]].
    destruct (runInference_outcome t ic false p page)
      as (r1 & p1 & page1 & Hrun & _ & Hs1 & _ & Hsame & _).
    specialize (Hsame eq_refl).
    assert (Hctx : canvasCtx p1 = canvasCtx p).
    { unfold settings in Hs1. injection Hs1 as _ -> _ _ _ _ _ _ _ _ _. done. }
    destruct r1 as [mask|e|].
    + rewrite (bind_normal _ _ _ _ _ Hrun). rewrite finish_dom; [by rewrite Hsame|].
      by rewrite Hctx, Hsame.
    + rewrite (bind_thrown _ _ _ _ _ Hrun). cbn. by rewrite Hsame.
    + rewrite (bind_suspended _ _ _ _ Hrun). cbn. by rewrite Hsame.
  - step. by apply finish_dom.
Qed.

(** The rest of the [try] for a frame that is not the processor's own output. *)
Lemma finish_framed ic mask q page target :
  targetCanvas q = Some target -> canvasCtx q = target -> ic <> target ->
  finish ic (Some mask) (q, page)
  = (Normal tt,
     (countFrame q,
      withCanvases
        (<[target := labelled (fps q)
                       (composited (blurAmount q) (image (canvases page !!! ic)) mask
                          (canvases page !!! target))]> (canvases page)) page)).
Proof.
  intros Ht Hc Hne. unfold finish. step.
  rewrite (bind_normal _ _ _ _ _
             (compositePasses_eq ic mask (countFrame q) page target Ht Hc Hne)).
  unfold drawFps. step. cbn [canvasCtx countFrame set_runningCount]. rewrite Hc.
  repeat step. reflexivity.
Qed.

End Calls.

(** ** Computations that do not read the console *)

Lemma alike_ret {A} (a : A) : alike (mret a) (mret a).
Proof. intros s1 s2 H. done. Qed.

Lemma alike_bind {A B} (m1 m2 : M A) (k1 k2 : A -> M B) :
  alike m1 m2 -> (forall a, alike (k1 a) (k2 a)) -> alike (m1 ≫= k1) (m2 ≫= k2).
Proof.
  intros Hm Hk s1 s2 H. unfold mbind, M_bind. destruct (Hm s1 s2 H) as [Hr Hs].
  destruct (m1 s1) as [r1 s1'], (m2 s2) as [r2 s2']. cbn [fst snd] in *. subst r2.
  destruct r1 as [a|e|]; [by apply Hk|done|done].
Qed.

Lemma alike_this : alike this this.
Proof. intros s1 s2 [H1 H2]. unfold this. cbn. by rewrite H1. Qed.

Lemma alike_assign f : alike (assign f) (assign f).
Proof. intros s1 s2 [H1 H2]. unfold assign, consoleApart. cbn. by rewrite H1. Qed.

Lemma alike_throw {A} e : alike (throw (A:=A) e) (throw e).
Proof. intros s1 s2 H. done. Qed.

Lemma alike_suspend {A} : alike (suspend (A:=A)) suspend.
Proof. intros s1 s2 H. done. Qed.

Lemma alike_canvas l : alike (canvas l) (canvas l).
Proof. intros s1 s2 [H1 H2]. unfold canvas. cbn. by rewrite H2. Qed.

Lemma alike_update l f : alike (update l f) (update l f).
Proof. intros s1 s2 [H1 H2]. unfold update, consoleApart. cbn. by rewrite H1, H2. Qed.

Lemma alike_createElement : alike createElement createElement.
Proof. intros s1 s2 [H1 H2]. unfold createElement, consoleApart. cbn. by rewrite H1, H2. Qed.

(** A line on the console is all a rejected [send] leaves. *)
Lemma alike_logged line : alike (log line) (mret tt).
Proof. intros s1 s2 [H1 H2]. unfold log, consoleApart. cbn. by rewrite H1, H2. Qed.

Section Accepted.
Context {browser : Browser}.

Lemma alike_scaleFrame t ic : alike (scaleFrame t ic) (scaleFrame (accepted t) ic).
Proof.
  unfold scaleFrame. cbn [context2d accepted].
  repeat first [ apply alike_bind; [|intros ?] | apply alike_createElement
               | apply alike_canvas | apply alike_this | apply alike_update ].
  destruct (context2d t); [|apply alike_throw].
  repeat first [ apply alike_bind; [|intros ?] | apply alike_ret
               | apply alike_canvas | apply alike_this | apply alike_update ].
Qed.

Lemma alike_sendImage t x : alike (sendImage t x) (sendImage (accepted t) x).
Proof.
  unfold sendImage. cbn [sendRejects accepted].
  apply alike_bind; [apply alike_this|intros self].
  destruct (selfieSegmentation self) as [backend|]; [|apply alike_throw].
  apply alike_bind; [apply alike_assign|intros _].
  destruct (sendRejects t); [apply alike_logged|apply alike_ret].
Qed.

Lemma alike_awaitMask t : alike (awaitMask t) (awaitMask (accepted t)).
Proof.
  unfold awaitMask. cbn [delivery accepted]. destruct (delivery t).
  - apply alike_bind; [apply alike_assign|intros _; apply alike_ret].
  - apply alike_throw.
  - apply alike_suspend.
Qed.

Lemma alike_compositePasses ic mask :
  alike (compositePasses ic mask) (compositePasses ic mask).
Proof.
  unfold compositePasses. apply alike_bind; [apply alike_this|intros self].
  destruct (targetCanvas self) as [target|]; [|apply alike_throw].
  repeat first [ apply alike_bind; [|intros ?] | apply alike_canvas | apply alike_update ].
  destruct (0 <? blurAmount self); [apply alike_update|apply alike_ret].
Qed.

Lemma alike_drawFps : alike drawFps drawFps.
Proof.
  unfold drawFps.
  repeat first [ apply alike_bind; [|intros ?] | apply alike_this | apply alike_update ].
Qed.

Lemma alike_tryBlock t ic ds : alike (tryBlock t ic ds) (tryBlock (accepted t) ic ds).
Proof.
  unfold tryBlock. apply alike_bind; [apply alike_this|intros self].
  apply alike_bind.
  { destruct (shouldRunInference self); [|apply alike_ret].
    unfold runInference.
    apply alike_bind; [apply alike_assign|intros _].
    apply alike_bind; [destruct ds; [apply alike_scaleFrame|apply alike_ret]|intros x].
    apply alike_bind; [apply alike_assign|intros _].
    apply alike_bind; [apply alike_sendImage|intros _].
    apply alike_bind; [apply alike_awaitMask|intros mask].
    apply alike_bind; [apply alike_assign|intros _; apply alike_ret]. }
  intros mask. apply alike_bind; [apply alike_assign|intros _].
  destruct mask as [mask|]; [|apply alike_ret].
  apply alike_bind; [apply alike_compositePasses|intros _; apply alike_drawFps].
Qed.

End Accepted.

(** ** Numbers and names *)

(** Zero over any positive number, infinite or not, is zero. *)
Lemma zero_over_positive (d : float) :
  PrimFloat.ltb 0 d = true -> (0 / d)%float = 0%float.
Proof.
  intros H. apply Prim2SF_inj. rewrite FloatAxioms.div_spec.
  rewrite FloatAxioms.ltb_spec in H.
  change (Prim2SF 0) with (S754_zero false) in *.
  destruct (Prim2SF d) as [s|s| |s m e]; cbn in H; try discriminate;
    destruct s; try discriminate; reflexivity.
Qed.

(** Any number times NaN is NaN. *)
Lemma times_nan (x : float) : (x * nan)%float = nan.
Proof.
  apply Prim2SF_inj. rewrite FloatAxioms.mul_spec.
  change (Prim2SF nan) with S754_nan.
  unfold SF64mul, SFmul. by destruct (Prim2SF x).
Qed.

Lemma dimension_range (d : Z) (x : float) :
  0 <= d <= 2147483647 -> 0 <= dimension d x <= 2147483647.
Proof.
  intros Hd. unfold dimension, Number.ToUint32.
  pose proof (Z.mod_pos_bound (Number.truncate x) (2 ^ 32) ltac:(lia)).
  destruct (2147483647 <? _) eqn:E; [lia|]. apply Z.ltb_ge in E. lia.
Qed.

Lemma substring_all (s : string) : String.substring 0 (String.length s) s = s.
Proof. induction s as [|c s IH]; cbn; [done|by rewrite IH]. Qed.

Lemma append_cancel (base s1 s2 : string) :
  String.append base s1 = String.append base s2 -> s1 = s2.
Proof. induction base as [|c base IH]; cbn; [done|]. intros [= E]. auto. Qed.

(** ** A call that waits *)

(** X1.  A call of [process] never settles in one case only: it reached its
    [try], the gate was open, it got as far as its [await] (a context for the
    scaled canvas, a backend to send to), and the backend delivers no result.
    There is no timeout.  The call has then sent its image, reset the counter
    to 0 and left every array as it was. *)
Theorem process_stalls_without_result {browser : Browser} (t : Tick) (buffers : loc)
    (self : Processor) (page : Page) (arrays : Arrays) :
  let r := process t buffers self page arrays in
  (fst (fst r) = Pending
   <-> (exists ic ds s, enter buffers self page arrays = Enters ic ds s)
       /\ shouldRunInference self = true
       /\ awaits t (negb (PrimFloat.eqb (scaleFactor self) 1)) self = true
       /\ delivery t = Never)
  /\ (fst (fst r) = Pending ->
      snd r = arrays
      /\ submitted (fst (snd (fst r))) = S (submitted self)
      /\ runningCount (fst (snd (fst r))) = 0).
Proof.
  cbv zeta.
  destruct (process_outcome t buffers self page arrays) as [_ H].
  pose proof (enter_state buffers self page arrays) as Hs.
  destruct (enter buffers self page arrays) as [page'|e s|ic ds s].
  - destruct H as (Hn & _). split; [|done].
    split; [done|]. by intros [(? & ? & ? & [=]) _].
  - destruct H as (Hn & _). split; [|done].
    split; [done|]. by intros [(? & ? & ? & [=]) _].
  - destruct Hs as (<- & _).
    destruct (shouldRunInference self).
    + destruct (awaits t ds self).
      * destruct H as [Hsub H]. destruct (delivery t) as [mask|e|].
        -- destruct H as (-> & _). split; [|done].
           split; [done|]. by intros (_ & _ & _ & [=]).
        -- destruct H as (-> & _). split; [|done].
           split; [done|]. by intros (_ & _ & _ & [=]).
        -- destruct H as (-> & -> & -> & _). split; [|done].
           split; [|done]. intros _. eauto 10.
      * destruct H as (-> & _). split; [|done].
        split; [done|]. by intros (_ & _ & [=] & _).
    + destruct H as (-> & _). split; [|done].
      split; [done|]. by intros (_ & [=] & _).
Qed.

(** ** The counters *)

(** X2.  [frames], the count the frame rate is computed from, goes up by one
    in a call exactly when the call awaited a mask and the backend delivered:
    it counts completed inferences, not calls.  In every other call (not
    ready, a degenerate frame, a skipped or a failed inference) it stays. *)
Theorem frames_count_delivered_masks {browser : Browser} (t : Tick) (buffers : loc)
    (self : Processor) (page : Page) (arrays : Arrays) :
  let self' := fst (snd (fst (process t buffers self page arrays))) in
  let delivered :=
    (exists ic ds s, enter buffers self page arrays = Enters ic ds s)
    /\ shouldRunInference self = true
    /\ awaits t (negb (PrimFloat.eqb (scaleFactor self) 1)) self = true
    /\ exists mask, delivery t = Delivers mask in
  (delivered -> frames self' = frames self + 1 /\ submitted self' = S (submitted self))
  /\ (~ delivered -> frames self' = frames self).
Proof.
  cbv zeta.
  destruct (process_outcome t buffers self page arrays) as [_ H].
  pose proof (enter_state buffers self page arrays) as Hs.
  destruct (enter buffers self page arrays) as [page'|e s|ic ds s].
  - destruct H as (_ & _ & _ & Hf & _). split; [|done].
    by intros [(? & ? & ? & [=]) _].
  - destruct H as (_ & _ & _ & Hf & _). split; [|done].
    by intros [(? & ? & ? & [=]) _].
  - destruct Hs as (<- & _).
    destruct (shouldRunInference self).
    + destruct (awaits t ds self).
      * destruct H as [Hsub H]. destruct (delivery t) as [mask|e|].
        -- destruct H as (_ & _ & Hf). split; [done|].
           intros Hn. destruct Hn. eauto 10.
        -- destruct H as (_ & _ & _ & Hf). split; [|done].
           by intros (_ & _ & _ & ? & [=]).
        -- destruct H as (_ & _ & _ & Hf). split; [|done].
           by intros (_ & _ & _ & ? & [=]).
      * destruct H as (_ & _ & _ & Hf & _). split; [|done].
        by intros (_ & _ & [=] & _).
    + destruct H as (_ & _ & Hf & _). split; [|done].
      by intros (_ & [=] & _).
Qed.

(** X3.  For a period of at least 1, a counter between 0 and the period
    stays there through any run of calls, whatever the platform and the
    backend do in each: the counter never passes the period, so the test of
    the gate, an equality, cannot be stepped over.  The period itself is never
    assigned. *)
Theorem counter_stays_in_range {browser : Browser} (calls : list (Tick * loc))
    (self : Processor) (page : Page) (arrays : Arrays) :
  1 <= reduceFactor self ->
  0 <= runningCount self <= reduceFactor self ->
  let self' := fst (snd (fst (processAll calls self page arrays))) in
  reduceFactor self' = reduceFactor self
  /\ 0 <= runningCount self' <= reduceFactor self.
Proof.
  intros HN Hc. cbv zeta.
  apply (processAll_invariant
           (fun p _ => reduceFactor p = reduceFactor self
                       /\ 0 <= runningCount p <= reduceFactor self)); [|done].
  clear Hc. intros t buffers p pg arrs [Hn Hc].
  destruct (process_outcome t buffers p pg arrs) as [Hn' H].
  split; [congruence|].
  destruct (enter buffers p pg arrs) as [page'|e s|ic ds s].
  - destruct H as (_ & _ & -> & _). done.
  - destruct H as (_ & _ & -> & _). done.
  - unfold shouldRunInference in H. destruct (runningCount p =? reduceFactor p) eqn:E.
    + destruct (awaits t ds p).
      * destruct H as [_ H]. destruct (delivery t) as [mask|e|].
        -- destruct H as (_ & -> & _). lia.
        -- destruct H as (_ & _ & -> & _). lia.
        -- destruct H as (_ & _ & -> & _). lia.
      * destruct H as (_ & _ & -> & _). lia.
    + apply Z.eqb_neq in E. destruct H as (_ & -> & _). lia.
Qed.

Lemma counter_stays_in_range_witness :
  let s := supply sampleFrame (snd (ready_processor 2)) ∅ in
  reduceFactor
    (fst (snd (fst (processAll (browser := sampleBrowser)
                      [(quiet (Some sampleMask), 1%positive); (rejecting, 1%positive);
                       (quiet None, 1%positive)]
                      (fst (ready_processor 2)) (snd (fst s)) (snd s)))))
  = 2.
Proof.
  cbv zeta.
  refine (proj1 (counter_stays_in_range (browser := sampleBrowser) _
                   (fst (ready_processor 2)) _ _ _ _)).
  - vm_compute. discriminate.
  - vm_compute. split; discriminate.
Defined.

(** X4.  A call that opens the gate and does not get a mask (it fails before
    its [await], the awaited promise rejects, or no result arrives) leaves
    the counter at 0, where line 112 put it, not at the period: the arrays
    are as they were, no frame is counted for the frame rate, and for any
    period but 0 the next call skips the inference. *)
Theorem failed_inference_closes_gate {browser : Browser} (t : Tick) (buffers : loc)
    (self : Processor) (page : Page) (arrays : Arrays) (ic : loc) (ds : bool)
    (s : Processor * Page) :
  enter buffers self page arrays = Enters ic ds s ->
  shouldRunInference self = true ->
  awaits t ds self = false \/ (exists e, delivery t = Rejects e) \/ delivery t = Never ->
  let r := process t buffers self page arrays in
  let self' := fst (snd (fst r)) in
  snd r = arrays
  /\ runningCount self' = 0
  /\ frames self' = frames self
  /\ (reduceFactor self <> 0 -> shouldRunInference self' = false).
Proof.
  intros He Hgate Hfail. cbv zeta.
  destruct (process_outcome t buffers self page arrays) as [Hn H].
  rewrite He, Hgate in H.
  assert (Hgoal : snd (process t buffers self page arrays) = arrays
                  /\ runningCount (fst (snd (fst (process t buffers self page arrays)))) = 0
                  /\ frames (fst (snd (fst (process t buffers self page arrays))))
                     = frames self).
  { destruct (awaits t ds self).
    - destruct H as [_ H]. destruct Hfail as [[=]|[[e Hd]|Hd]]; rewrite Hd in H.
      + destruct H as (_ & ? & ? & ?). done.
      + destruct H as (_ & ? & ? & ?). done.
    - destruct H as (_ & ? & ? & ? & _). done. }
  destruct Hgoal as (Ha & Hc & Hf). repeat split; try done.
  intros HN. unfold shouldRunInference. rewrite Hc, Hn. apply Z.eqb_neq. congruence.
Qed.

Lemma failed_inference_closes_gate_witness :
  let s := supply sampleFrame (snd (ready_processor 1)) ∅ in
  let r := process (browser := sampleBrowser) rejecting (fst (fst s))
             (fst (ready_processor 1)) (snd (fst s)) (snd s) in
  snd r = snd s /\ runningCount (fst (snd (fst r))) = 0.
Proof.
  cbv zeta.
  refine (let pf := failed_inference_closes_gate (browser := sampleBrowser) rejecting
                      (fst (fst (supply sampleFrame (snd (ready_processor 1)) ∅)))
                      (fst (ready_processor 1))
                      (snd (fst (supply sampleFrame (snd (ready_processor 1)) ∅)))
                      (snd (supply sampleFrame (snd (ready_processor 1)) ∅))
                      2%positive false _ _ _ _ in
          conj (proj1 pf) (proj1 (proj2 pf))).
  - vm_compute. reflexivity.
  - reflexivity.
  - right. left. eexists. reflexivity.
Defined.

(** X18.  No run of calls of [process] assigns the target canvas, the
    context, the output buffer, the blur strength, the frame rate, the timer,
    the period, the scale factor or the ready flag. *)
Theorem process_keeps_configuration {browser : Browser} (calls : list (Tick * loc))
    (self : Processor) (page : Page) (arrays : Arrays) :
  configuration (fst (snd (fst (processAll calls self page arrays)))) = configuration self.
Proof.
  apply (processAll_invariant (fun p _ => configuration p = configuration self)); [|done].
  intros t buffers p pg arrs Hp. by rewrite process_configuration.
Qed.

(** ** After [destroy()] *)

(** X5.  A call of [process] on a destroyed processor draws nothing and asks
    the backend nothing, whatever its state before [destroy()]: it returns or
    throws but never waits, every canvas of the page is as it was, and the
    processor stays as [destroy()] left it (destroying it again changes
    nothing).  The first element of the array it returns is the one it was
    given or a buffer without a canvas. *)
Theorem destroyed_processor_is_inert {browser : Browser} (t : Tick) (buffers : loc)
    (self : Processor) (page : Page) (arrays : Arrays) :
  let r := process t buffers (destroy self) page arrays in
  let self' := fst (snd (fst r)) in
  let page' := snd (snd (fst r)) in
  fst (fst r) <> Pending
  /\ (forall l, is_Some (canvases page !! l) -> canvases page' !! l = canvases page !! l)
  /\ destroy self' = self'
  /\ (forall first, (snd r !!! buffers) !! 0%nat = Some first ->
      (arrays !!! buffers) !! 0%nat = Some first \/ asCanvasElement first = None).
Proof.
  cbv zeta. unfold process.
  pose proof (enter_state buffers (destroy self) page arrays) as He.
  destruct (enter buffers (destroy self) page arrays) as [page'|e s|ic ds [p1 page1]] eqn:Hen;
    cbn [fst snd].
  - split; [done|]. split; [by intros l _; rewrite He|]. split; [done|by left].
  - destruct He as [Hs ->]. split; [done|]. split; [done|].
    split; [|by left]. by destruct Hs as [->|(w & h & ->)].
  - destruct He as (_ & Hs & Hp). cbn [fst snd] in *. rewrite Hp by done.
    assert (Hrel : targetCanvas p1 = None /\ selfieSegmentation p1 = None
                   /\ canvasVideoFrameBuffer p1 = {| asCanvasElement := None |}
                   /\ fpsTimer p1 = false).
    { by destruct Hs as [->|(w & h & ->)]. }
    destruct Hrel as (Ht & Hb & Hv & Hf).
    destruct (tryBlock_outcome t ic ds p1 page) as (r & p' & page' & -> & Hset & Hsame & Hout).
    specialize (Hsame Ht).
    assert (Haw : awaits t ds p1 = false).
    { unfold awaits. rewrite Hb. apply andb_false_r. }
    rewrite Haw in Hout.
    assert (Hr : r <> Suspend /\ selfieSegmentation p' = None).
    { destruct (shouldRunInference p1).
      - destruct Hout as ([e ->] & _ & _ & ->). done.
      - destruct Hout as (? & _ & _ & -> & _). done. }
    destruct Hr as [Hr Hb'].
    assert (Hd : destroy p' = p').
    { unfold settings in Hset. injection Hset as E1 _ E3 _ _ _ _ E8 _ _ _.
      rewrite Ht in E1. rewrite Hv in E3. rewrite Hf in E8.
      destruct p'. cbn in E1, E3, E8, Hb'. subst. reflexivity. }
    assert (Hv' : canvasVideoFrameBuffer p' = {| asCanvasElement := None |}).
    { unfold settings in Hset. injection Hset as _ _ -> _ _ _ _ _ _ _ _. done. }
    destruct r as [[]|e|]; [| |done]; cbn [fst snd].
    + split; [done|]. split; [done|]. split; [done|].
      intros first. rewrite lookup_total_insert_eq. intros Hfirst. right.
      destruct (enter_has_first _ _ _ _ _ _ _ Hen) as (f0 & Hf0 & _).
      rewrite list_lookup_insert_eq in Hfirst by (by apply lookup_lt_Some in Hf0).
      injection Hfirst as <-. by rewrite Hv'.
    + split; [done|]. split; [done|]. split; [done|by left].
Qed.

(** X12.  [updateScaleFactor] assigns the scale factor before anything else
    and checks nothing about it.  On a processor with its target canvas it
    then writes one line to the console and touches no canvas; without one
    (after [destroy()]) it throws, the scale factor already assigned. *)
Theorem updateScaleFactor_sets_then_logs (scale : float) (self : Processor) (page : Page) :
  let r := updateScaleFactor scale (self, page) in
  fst (snd r) = set_scaleFactor scale self
  /\ canvases (snd (snd r)) = canvases page
  /\ (targetCanvas self = None ->
      fst r = Throw (TypeError "this.targetCanvas is undefined") /\ snd (snd r) = page)
  /\ (targetCanvas self <> None ->
      fst r = Normal tt
      /\ console (snd (snd r))
         = console page ++ ["INFO SelfieSegmentationProcessor::updateScaleFactor"%string])
  /\ fst (updateScaleFactor scale (destroy self, page))
     = Throw (TypeError "this.targetCanvas is undefined").
Proof.
  cbv zeta. unfold updateScaleFactor. do 2 step.
  cbn [targetCanvas set_scaleFactor].
  destruct (targetCanvas self) as [target|]; repeat split; try done.
Qed.

(** ** The canvases of the page *)

(** X16.  The constructor makes one canvas, which no reference named before,
    and touches no other; the processor it returns is live on that canvas,
    not ready, has sent nothing, and has its gate open whatever the
    period. *)
Theorem constructor_makes_live_processor (period strength : Z) (page : Page) :
  let self := fst (constructor period strength page) in
  let page' := snd (constructor period strength page) in
  exists target,
    Alive self page' target
    /\ canvases page !! target = None
    /\ canvases page' = <[target := newCanvas]> (canvases page)
    /\ console page' = console page
    /\ isReady self = false
    /\ shouldRunInference self = true
    /\ submitted self = 0%nat.
Proof.
  cbv zeta. exists (fresh (dom (canvases page))).
  split; [apply constructor_alive|].
  split; [apply not_elem_of_dom, is_fresh|].
  repeat split. unfold shouldRunInference. cbn. apply Z.eqb_refl.
Qed.

(** X7.  A live processor stays live through any run of calls, whatever
    happens in each: the target canvas is there, the output buffer wraps it,
    the backend is held, the canvas has the size of the last frame that got
    past the early returns, and its context is back in its default mode
    (source-over, no filter) after every call. *)
Theorem output_canvas_stays_in_order {browser : Browser} (calls : list (Tick * loc))
    (self : Processor) (page : Page) (arrays : Arrays) (target : loc) :
  Alive self page target ->
  Alive (fst (snd (fst (processAll calls self page arrays))))
        (snd (snd (fst (processAll calls self page arrays)))) target.
Proof.
  intros HA.
  apply (processAll_invariant (fun p pg => Alive p pg target)); [|done].
  intros t buffers p pg arrs. apply process_alive.
Qed.

Lemma output_canvas_stays_in_order_witness :
  let s := supply sampleFrame (snd (ready_processor 1)) ∅ in
  let r := processAll (browser := sampleBrowser)
             [(quiet (Some sampleMask), 1%positive); (rejecting, 1%positive)]
             (fst (ready_processor 1)) (snd (fst s)) (snd s) in
  Alive (fst (snd (fst r))) (snd (snd (fst r))) 1%positive.
Proof.
  cbv zeta.
  apply (output_canvas_stays_in_order (browser := sampleBrowser)
           [(quiet (Some sampleMask), 1%positive); (rejecting, 1%positive)]
           (fst (ready_processor 1))
           (snd (fst (supply sampleFrame (snd (ready_processor 1)) ∅)))
           (snd (supply sampleFrame (snd (ready_processor 1)) ∅)) 1%positive).
  split; try reflexivity.
  - discriminate.
  - vm_compute. eauto.
  - left. reflexivity.
  - split; reflexivity.
Defined.

(** X6.  A live processor draws on its target canvas only: through any run
    of calls, every other canvas of the page, the canvases of the frames
    among them, is as it was. *)
Theorem process_draws_on_target_only {browser : Browser} (calls : list (Tick * loc))
    (self : Processor) (page : Page) (arrays : Arrays) (target l : loc) :
  Alive self page target ->
  is_Some (canvases page !! l) ->
  l <> target ->
  canvases (snd (snd (fst (processAll calls self page arrays)))) !! l = canvases page !! l.
Proof.
  intros HA Hl Hne.
  refine (proj2 (processAll_invariant
                   (fun p pg => Alive p pg target /\ canvases pg !! l = canvases page !! l)
                   _ calls self page arrays (conj HA eq_refl))).
  intros t buffers p pg arrs [HAp Hp]. split; [by apply process_alive|].
  rewrite <- Hp. apply (process_others _ _ _ _ _ target); [done| |done].
  by rewrite Hp.
Qed.

Lemma process_draws_on_target_only_witness :
  let s := supply sampleFrame (snd (ready_processor 1)) ∅ in
  canvases (snd (snd (fst (processAll (browser := sampleBrowser)
                             [(quiet (Some sampleMask), 1%positive)]
                             (fst (ready_processor 1)) (snd (fst s)) (snd s)))))
    !! 2%positive
  = canvases (snd (fst s)) !! 2%positive.
Proof.
  cbv zeta.
  apply (process_draws_on_target_only (browser := sampleBrowser)
           [(quiet (Some sampleMask), 1%positive)] (fst (ready_processor 1))
           (snd (fst (supply sampleFrame (snd (ready_processor 1)) ∅)))
           (snd (supply sampleFrame (snd (ready_processor 1)) ∅)) 1%positive 2%positive).
  - split; try reflexivity.
    + discriminate.
    + vm_compute. eauto.
    + left. reflexivity.
    + split; reflexivity.
  - vm_compute. eauto.
  - discriminate.
Defined.

(** X15.  A live processor makes a canvas for one purpose, to scale a frame
    for the inference: with the scale factor 1, and in any call that skips
    the inference, the page has the same canvases after the call as before. *)
Theorem process_allocates_only_to_scale {browser : Browser} (t : Tick) (buffers : loc)
    (self : Processor) (page : Page) (arrays : Arrays) (target : loc) :
  Alive self page target ->
  PrimFloat.eqb (scaleFactor self) 1 = true \/ shouldRunInference self = false ->
  dom (canvases (snd (snd (fst (process t buffers self page arrays)))))
  = dom (canvases page).
Proof.
  intros HA Hor. pose proof (alive_target _ _ _ HA) as Ht. unfold process.
  pose proof (enter_state buffers self page arrays) as Hs.
  destruct (enter buffers self page arrays) as [page'|e s|ic ds s] eqn:He; cbn [fst snd].
  - by rewrite Hs.
  - destruct Hs as [_ ->]. done.
  - destruct Hs as (Hds & Hp & _).
    destruct (entered_fields self s Hp) as (Hc & Hn & _).
    destruct (enter_has_first _ _ _ _ _ _ _ He) as (first & Hf & Hcv & Hd).
    assert (Hr : isReady self = true).
    { unfold enter in He. by destruct (isReady self). }
    rewrite (enter_frame _ _ _ _ _ _ _ Hr Hf Hcv Hd Ht) in He. injection He as _ <-.
    assert (Hw : width (image (canvases page !!! ic)) <> 0).
    { unfold degenerate in Hd. rewrite Hcv in Hd. apply orb_false_iff in Hd as [Hd _].
      by apply Z.eqb_neq in Hd. }
    destruct (entered_alive _ (height (image (canvases page !!! ic))) _ _ _ Hw HA)
      as (HA1 & _ & _ & Hsame & _).
    assert (Hdom : dom (canvases (snd (entered (width (image (canvases page !!! ic)))
                                         (height (image (canvases page !!! ic)))
                                         self page target)))
                   = dom (canvases page)).
    { unfold entered. destruct (negb _ || negb _); [|done]. cbn.
      apply dom_insert_lookup_L, HA. }
    destruct (entered _ _ _ _ _) as [p1 page1]. cbn [fst snd] in *.
    assert (Hgoal : dom (canvases (snd (snd (tryBlock t ic ds (p1, page1)))))
                    = dom (canvases page)).
    { rewrite tryBlock_dom; [done| |].
      - rewrite (alive_ctx _ _ _ HA1). apply HA1.
      - destruct Hor as [E|E]; [left; by rewrite Hds, E|right].
        unfold shouldRunInference in *. congruence. }
    destruct (tryBlock t ic ds (p1, page1)) as [[[]|e|] [p' page']]; exact Hgoal.
Qed.

Lemma process_allocates_only_to_scale_witness :
  let s := supply sampleFrame (snd (ready_processor 1)) ∅ in
  dom (canvases (snd (snd (fst (process (browser := sampleBrowser)
                                  (quiet (Some sampleMask)) 1%positive
                                  (fst (ready_processor 1)) (snd (fst s)) (snd s))))))
  = dom (canvases (snd (fst s))).
Proof.
  cbv zeta.
  apply (process_allocates_only_to_scale (browser := sampleBrowser)
           (quiet (Some sampleMask)) 1%positive (fst (ready_processor 1))
           (snd (fst (supply sampleFrame (snd (ready_processor 1)) ∅)))
           (snd (supply sampleFrame (snd (ready_processor 1)) ∅)) 1%positive).
  - split; try reflexivity.
    + discriminate.
    + vm_compute. eauto.
    + left. reflexivity.
    + split; reflexivity.
  - left. reflexivity.
Defined.

(** X9.  [createCanvas(w, h)] never fails and touches no canvas of the page:
    it returns a reference that named no canvas before, to a transparent
    canvas in the default drawing state whose width and height are the
    arguments as the attribute setters convert them, each between 0 and
    2147483647 whatever the numbers passed. *)
Theorem createCanvas_makes_fresh_canvas (w h : float) (self : Processor) (page : Page) :
  exists canvas page',
    createCanvas w h (self, page) = (Normal canvas, (self, page'))
    /\ canvases page !! canvas = None
    /\ canvases page'
       = <[canvas := resized (dimension 300 w) (dimension 150 h)]> (canvases page)
    /\ console page' = console page
    /\ 0 <= dimension 300 w <= 2147483647
    /\ 0 <= dimension 150 h <= 2147483647.
Proof.
  exists (fresh (dom (canvases page))). eexists. split.
  { unfold createCanvas. repeat step. reflexivity. }
  split; [apply not_elem_of_dom, is_fresh|].
  split; [reflexivity|]. split; [reflexivity|].
  split; apply dimension_range; lia.
Qed.

(** ** The backend *)

(** X10.  [locateFile] puts the name of the file, as it is, behind the
    address of the package on the CDN: the name is read back from the URL,
    and two names never share a URL. *)
Theorem locateFile_keeps_name (file : string) :
  let base := "https://cdn.jsdelivr.net/npm/@mediapipe/selfie_segmentation/"%string in
  String.prefix base (locateFile file) = true
  /\ String.substring (String.length base) (String.length file) (locateFile file) = file
  /\ forall other, locateFile other = locateFile file -> other = file.
Proof.
  cbv zeta. split; [|split].
  - unfold locateFile. cbn. by destruct file.
  - unfold locateFile. cbn. apply substring_all.
  - intros other E. by apply append_cancel in E.
Qed.

(** X17.  The rejection of [send] is logged and has no other effect: the call
    ends as it does when [send] is accepted, with the same processor, the
    same canvases and the same arrays. *)
Theorem rejected_send_only_logs {browser : Browser} (t : Tick) (buffers : loc)
    (self : Processor) (page : Page) (arrays : Arrays) :
  let r := process t buffers self page arrays in
  let r0 := process (accepted t) buffers self page arrays in
  fst (fst r) = fst (fst r0)
  /\ fst (snd (fst r)) = fst (snd (fst r0))
  /\ canvases (snd (snd (fst r))) = canvases (snd (snd (fst r0)))
  /\ snd r = snd r0.
Proof.
  cbv zeta. unfold process.
  destruct (enter buffers self page arrays) as [page'|e s|ic ds s]; [done|done|].
  destruct (alike_tryBlock t ic ds s s (conj eq_refl eq_refl)) as [Hr [Hp Hc]].
  destruct (tryBlock t ic ds s) as [r1 [p1 pg1]].
  destruct (tryBlock (accepted t) ic ds s) as [r2 [p2 pg2]].
  cbn [fst snd] in *. subst r2 p2.
  destruct r1 as [[]|e|]; cbn [fst snd]; repeat split; done.
Qed.

(** X11.  A scale factor of NaN is taken as any other: it differs from 1, so
    the frame is scaled, and the canvas that goes to the backend, new to the
    page, has no width and no height. *)
Theorem nan_scale_sends_empty_canvas {browser : Browser} (t : Tick) (ic : loc)
    (p : Processor) (page : Page) (target : loc) (backend : SelfieSegmentation) :
  Alive p page target ->
  selfieSegmentation p = Some backend ->
  shouldRunInference p = true ->
  context2d t = true ->
  is_Some (canvases page !! ic) ->
  scaleFactor p = nan ->
  let doScale := negb (PrimFloat.eqb (scaleFactor p) 1) in
  doScale = true
  /\ exists handed r p' page',
       tryBlock t ic doScale (p, page) = (r, (p', page'))
       /\ selfieSegmentation p' = Some (send handed backend)
       /\ canvases page !! handed = None
       /\ width (image (canvases page' !!! handed)) = 0
       /\ height (image (canvases page' !!! handed)) = 0.
Proof.
  intros HA Hb Hgate Hctx Hic Hnan. cbv zeta. rewrite Hnan.
  change (negb (PrimFloat.eqb nan 1)) with true. split; [done|].
  destruct (tryBlock_sends t ic true p page target backend HA Hb Hgate (fun _ => Hctx) Hic)
    as (handed & r & p' & page' & Htry & Hb' & (Hnone & Hw & Hh) & _).
  exists handed, r, p', page'. rewrite Hnan, times_nan in Hw, Hh.
  repeat split; done.
Qed.

Lemma nan_scale_sends_empty_canvas_witness :
  exists handed r p' page',
    tryBlock (browser := sampleBrowser) (quiet (Some sampleMask)) 2%positive
      (negb (PrimFloat.eqb (scaleFactor (fst nan_scaled_processor)) 1))
      (fst nan_scaled_processor, snd nan_scaled_processor) = (r, (p', page'))
    /\ selfieSegmentation p'
       = Some (send handed {| sent := []; modelSelection := 1; closed := false |})
    /\ canvases (snd nan_scaled_processor) !! handed = None
    /\ width (image (canvases page' !!! handed)) = 0
    /\ height (image (canvases page' !!! handed)) = 0.
Proof.
  refine (proj2 (nan_scale_sends_empty_canvas (browser := sampleBrowser)
                   (quiet (Some sampleMask)) 2%positive
                   (fst nan_scaled_processor) (snd nan_scaled_processor)
                   1%positive {| sent := []; modelSelection := 1; closed := false |}
                   _ _ _ _ _ _)).
  - split; try reflexivity.
    + discriminate.
    + vm_compute. eauto.
    + left. reflexivity.
    + split; reflexivity.
  - reflexivity.
  - reflexivity.
  - reflexivity.
  - vm_compute. eauto.
  - reflexivity.
Defined.

(** ** The cached mask *)

(** X14.  A frame that skips the inference is drawn from the mask the
    processor holds as a frame is drawn from a mask just delivered: for a
    frame that is not the processor's own output, the target canvas after the
    skipping call is the target canvas after a call of the same processor
    with its gate open to which the backend delivers the same mask.  The
    skipping call sends nothing; the other sends one image. *)
Theorem cached_mask_draws_like_fresh {browser : Browser} (t t' : Tick) (ic : loc)
    (ds ds' : bool) (p : Processor) (page : Page) (target : loc) (mask : GpuBuffer)
    (backend : SelfieSegmentation) :
  Framed p page ic target ->
  width (image (canvases page !!! ic)) <> 0 ->
  shouldRunInference p = false ->
  DeferredObservable.value (mask_ p) = Some mask ->
  selfieSegmentation p = Some backend ->
  context2d t' = true ->
  delivery t' = Delivers (Some mask) ->
  let opened := set_runningCount (reduceFactor p) p in
  exists page1 p2 page2,
    tryBlock t ic ds (p, page) = (Normal tt, (countFrame p, page1))
    /\ tryBlock t' ic ds' (opened, page) = (Normal tt, (p2, page2))
    /\ submitted p2 = S (submitted p)
    /\ canvases page1 !! target = canvases page2 !! target.
Proof.
  intros [Ht Hc Hne Hw Hh _] Hsized Hgate Hval Hb Hctx Hd. cbv zeta.
  pose proof (lookup_sized page ic Hsized) as Hic.
  assert (Htc : is_Some (canvases page !! target)).
  { apply lookup_sized. by rewrite Hw. }
  (* the frame that skips the inference *)
  eexists. rewrite tryBlock_finish, Hgate. step. rewrite Hval.
  rewrite (finish_framed ic mask p page target Ht Hc Hne).
  (* the frame that asks the backend *)
  rewrite tryBlock_finish.
  assert (Hopen : shouldRunInference (set_runningCount (reduceFactor p) p) = true).
  { unfold shouldRunInference. cbn. apply Z.eqb_refl. }
  rewrite Hopen.
  destruct (runInference_run t' ic ds' (set_runningCount (reduceFactor p) p) page backend
              Hb (fun _ => Hctx)) as (handed & page1 & Hscaled & Hrun).
  cbv zeta in Hrun. rewrite Hd in Hrun. rewrite (bind_normal _ _ _ _ _ Hrun).
  rewrite (finish_framed ic mask _ _ target); [|exact Ht|exact Hc|exact Hne].
  eexists _, _. split; [reflexivity|]. split; [reflexivity|].
  split.
  { unfold submitted. cbn. rewrite Hb, length_app. cbn. lia. }
  cbn [canvases withCanvases]. rewrite !lookup_insert_eq. do 3 f_equal.
  all: assert (Hlog : forall b : bool,
         canvases (if b
                   then logged "ERROR SelfieSegmentationProcessor::selfieSegmentation" page1
                   else page1) = canvases page1) by (by intros []);
       rewrite Hlog; destruct ds'.
  all: try (destruct Hscaled as (_ & ->); reflexivity).
  all: destruct Hscaled as (-> & c & -> & _); cbn [canvases withCanvases];
       rewrite lookup_total_insert_ne; [reflexivity|];
       intros E; pose proof (is_fresh (dom (canvases page))) as Hfresh;
       rewrite E in Hfresh; apply Hfresh; by apply elem_of_dom.
Qed.

Lemma cached_mask_draws_like_fresh_witness :
  let p := fst coasting_processor in
  let page := snd (fst (supply sampleFrame (snd coasting_processor) ∅)) in
  exists page1 p2 page2,
    tryBlock (browser := sampleBrowser) (quiet None) 3%positive false (p, page)
    = (Normal tt, (countFrame p, page1))
    /\ tryBlock (browser := sampleBrowser) (quiet (Some sampleMask)) 3%positive false
         (set_runningCount (reduceFactor p) p, page)
       = (Normal tt, (p2, page2))
    /\ submitted p2 = S (submitted p)
    /\ canvases page1 !! 1%positive = canvases page2 !! 1%positive.
Proof.
  cbv zeta.
  apply (cached_mask_draws_like_fresh (browser := sampleBrowser) (quiet None)
           (quiet (Some sampleMask)) 3%positive false false (fst coasting_processor)
           (snd (fst (supply sampleFrame (snd coasting_processor) ∅)))
           1%positive sampleMask {| sent := [2%positive]; modelSelection := 1; closed := false |}).
  - split; try reflexivity; [discriminate|split; reflexivity].
  - vm_compute. discriminate.
  - reflexivity.
  - reflexivity.
  - reflexivity.
  - reflexivity.
  - reflexivity.
Defined.

(** ** The frame rate *)

(** X8.  When the timer fires with no frame counted since it last measured,
    some time recorded and the clock gone forward since, the frame rate it
    stores is 0 (for any time elapsed, an infinite one included); the count
    stays 0, the later reading of the clock is recorded, and nothing else of
    the processor changes. *)
Theorem idle_interval_shows_zero (time t1 t2 : float) (self : Processor) :
  frames self = 0 ->
  PrimFloat.ltb 0 time = true ->
  PrimFloat.ltb 0 (t1 - time) = true ->
  onInterval t1 t2 (time, self) = (t2, set_frames 0 (set_fps 0 self)).
Proof.
  intros Hf Ht Hd. unfold onInterval. rewrite Ht, Hd, Hf.
  change (Number.of_Z 0 * 1000)%float with 0%float.
  by rewrite zero_over_positive.
Qed.

Lemma idle_interval_shows_zero_witness :
  onInterval 4000 4001 (2000%float, fst (fresh_processor 1))
  = (4001%float, set_frames 0 (set_fps 0 (fst (fresh_processor 1)))).
Proof.
  apply (idle_interval_shows_zero 2000 4000 4001 (fst (fresh_processor 1)));
    reflexivity.
Defined.

(** ** The console *)

Section Console.
Context {browser : Browser}.


End Console.



(** ** The size of the output *)

(** X20.  After any call of a live processor that got past the early
    returns, however it ends (composited, skipped, failed or waiting), the
    target canvas has the width and the height of the frame, and so has the
    source size the processor records. *)
Theorem output_has_frame_size {browser : Browser} (t : Tick) (buffers : loc)
    (self : Processor) (page : Page) (arrays : Arrays) (target ic : loc) (ds : bool)
    (s : Processor * Page) :
  Alive self page target ->
  enter buffers self page arrays = Enters ic ds s ->
  let r := process t buffers self page arrays in
  let self' := fst (snd (fst r)) in
  let page' := snd (snd (fst r)) in
  width (image (canvases page' !!! target)) = width (image (canvases page !!! ic))
  /\ height (image (canvases page' !!! target)) = height (image (canvases page !!! ic))
  /\ sourceWidth self' = width (image (canvases page !!! ic))
  /\ sourceHeight self' = height (image (canvases page !!! ic)).
Proof.
  intros HA He. cbv zeta. pose proof (alive_target _ _ _ HA) as Ht. unfold process.
  rewrite He.
  destruct (enter_has_first _ _ _ _ _ _ _ He) as (first & Hf & Hc & Hd).
  assert (Hr : isReady self = true).
  { unfold enter in He. by destruct (isReady self). }
  rewrite (enter_frame _ _ _ _ _ _ _ Hr Hf Hc Hd Ht) in He. injection He as _ <-.
  set (w := width (image (canvases page !!! ic))).
  set (h := height (image (canvases page !!! ic))).
  assert (Hw : w <> 0).
  { unfold degenerate in Hd. rewrite Hc in Hd. apply orb_false_iff in Hd as [Hd _].
    by apply Z.eqb_neq in Hd. }
  destruct (entered_alive w h self page target Hw HA)
    as (HA1 & Hw1 & Hh1 & _ & Hset & _).
  destruct (entered w h self page target) as [p1 page1]. cbn [fst snd] in *.
  pose proof (respects_tryBlock t ic ds (p1, page1)) as [HS _ HSh _].
  destruct (HSh target (alive_canvas _ _ _ HA1)) as [_ Hshape].
  assert (Hgoal :
    width (image (canvases (snd (snd (tryBlock t ic ds (p1, page1)))) !!! target)) = w
    /\ height (image (canvases (snd (snd (tryBlock t ic ds (p1, page1)))) !!! target)) = h
    /\ sourceWidth (fst (snd (tryBlock t ic ds (p1, page1)))) = w
    /\ sourceHeight (fst (snd (tryBlock t ic ds (p1, page1)))) = h).
  { unfold shape in Hshape. injection Hshape as -> -> _ _.
    unfold settings in HS, Hset. cbn in Hset.
    injection HS as _ _ _ -> -> _ _ _ _ _ _.
    injection Hset as _ _ _ -> -> _ _ _ _ _ _. done. }
  destruct (tryBlock t ic ds (p1, page1)) as [[[]|e|] [p' page']]; exact Hgoal.
Qed.

Lemma output_has_frame_size_witness :
  let s := supply sampleFrame (snd (ready_processor 1)) ∅ in
  let r := process (browser := sampleBrowser) rejecting (fst (fst s))
             (fst (ready_processor 1)) (snd (fst s)) (snd s) in
  width (image (canvases (snd (snd (fst r))) !!! 1%positive)) = 4
  /\ height (image (canvases (snd (snd (fst r))) !!! 1%positive)) = 4.
Proof.
  cbv zeta.
  refine (let pf := output_has_frame_size (browser := sampleBrowser) rejecting
                      (fst (fst (supply sampleFrame (snd (ready_processor 1)) ∅)))
                      (fst (ready_processor 1))
                      (snd (fst (supply sampleFrame (snd (ready_processor 1)) ∅)))
                      (snd (supply sampleFrame (snd (ready_processor 1)) ∅))
                      1%positive 2%positive false _ _ _ in
          conj (proj1 pf) (proj1 (proj2 pf))).
  - split; try reflexivity.
    + discriminate.
    + vm_compute. eauto.
    + left. reflexivity.
    + split; reflexivity.
  - vm_compute. reflexivity.
Defined.
